(** * arch-unit: the Python AST extractor

    A shallow embedding of [analysis/python/python_ast_extractor.py]:
    the cyclomatic-complexity calculator, the declaration visitor, the
    result assembly and the command-line entry point, with the
    properties of its specification stated and proved (or refuted)
    over the embedding. *)

From Stdlib Require Import List String Ascii ZArith Lia Bool Permutation.
From Stdlib Require Import DecimalString.
Import ListNotations.

Open Scope string_scope.
Open Scope list_scope.
Open Scope Z_scope.

(** ** The syntax tree built by [ast.parse]

    The node classes the extractor inspects are constructors of their
    own, with the fields of the [ast] module in the order of [_fields]
    (the order in which [generic_visit] walks them).  Every other
    expression class (BinOp, Call, Compare, IfExp, Subscript, ...) is
    [OtherExpr] and every other simple statement (Assign, Return, Expr,
    Raise, Assert, Pass, ...) is [OtherStmt], each holding its child
    expressions in field order.  Nodes that no handler is written for
    and that hold no statement (operator and context tokens, the
    keyword of a call or class, the patterns of a match case) are left
    out, their child expressions kept.  The grammar is that of Python
    3.8 to 3.11. *)

Scheme All for list.
Scheme All for option.
Scheme All for prod.

Inductive boolop : Type := And | Or.

Inductive constant : Type :=
  | CNone
  | CBool (b : bool)
  | CStr (s : string)
  | CInt (z : Z)
  | CEllipsis
  | COther (text : string).   (* float, complex, bytes: its [str()] text *)

Inductive expr : Type :=
  | BoolOp (op : boolop) (values : list expr)
  | Lambda (args : arguments) (body : expr)
  | ListComp (elt : expr) (generators : list comprehension)
  | SetComp (elt : expr) (generators : list comprehension)
  | DictComp (key value : expr) (generators : list comprehension)
  | GeneratorExp (elt : expr) (generators : list comprehension)
  | Constant (value : constant)
  | Attribute (value : expr) (attr : string)
  | Name (id : string)
  | OtherExpr (operands : list expr)
with comprehension : Type :=
  | Comprehension (target iter : expr) (ifs : list expr)
with arguments : Type :=
  | Arguments (posonlyargs args : list arg) (vararg : option arg)
              (kwonlyargs : list arg) (kw_defaults : list (option expr))
              (kwarg : option arg) (defaults : list expr)
with arg : Type :=
  | Arg (arg_name : string) (annotation : option expr).

Record withitem : Type :=
  WithItem { context_expr : expr; optional_vars : option expr }.

Record alias : Type :=
  Alias { alias_name : string; asname : option string }.

Inductive stmt : Type :=
  | FunctionDef (name : string) (args : arguments) (body : list stmt)
                (decorator_list : list expr) (returns : option expr)
                (lineno : Z) (end_lineno : option Z)
  | AsyncFunctionDef (name : string) (args : arguments) (body : list stmt)
                (decorator_list : list expr) (returns : option expr)
                (lineno : Z) (end_lineno : option Z)
  | ClassDef (name : string) (bases keywords : list expr) (body : list stmt)
             (decorator_list : list expr) (lineno : Z) (end_lineno : option Z)
  | For (target iter : expr) (body orelse : list stmt)
  | AsyncFor (target iter : expr) (body orelse : list stmt)
  | While (test : expr) (body orelse : list stmt)
  | If (test : expr) (body orelse : list stmt)
  | With (items : list withitem) (body : list stmt)
  | AsyncWith (items : list withitem) (body : list stmt)
  | Match (subject : expr) (cases : list match_case)
  | Try (body : list stmt) (handlers : list excepthandler)
        (orelse finalbody : list stmt)
  | TryStar (body : list stmt) (handlers : list excepthandler)
        (orelse finalbody : list stmt)
  | Import (names : list alias) (lineno : Z)
  | ImportFrom (module : option string) (names : list alias) (level : Z)
               (lineno : Z)
  | OtherStmt (operands : list expr)
with excepthandler : Type :=
  | ExceptHandler (type : option expr) (name : option string)
                  (body : list stmt)
with match_case : Type :=
  | MatchCase (pattern : list expr) (guard : option expr) (body : list stmt).

Scheme expr_mind := Induction for expr Sort Prop
  with comprehension_mind := Induction for comprehension Sort Prop
  with arguments_mind := Induction for arguments Sort Prop
  with arg_mind := Induction for arg Sort Prop.
Combined Scheme expr_mutind
  from expr_mind, comprehension_mind, arguments_mind, arg_mind.

Scheme stmt_mind := Induction for stmt Sort Prop
  with excepthandler_mind := Induction for excepthandler Sort Prop
  with match_case_mind := Induction for match_case Sort Prop.
Combined Scheme stmt_mutind
  from stmt_mind, excepthandler_mind, match_case_mind.

(** [ast.Module]: what [ast.parse] returns in its default mode. *)
Inductive ast_module : Type := PyModule (body : list stmt).

Definition comprehension_ifs (g : comprehension) : list expr :=
  match g with Comprehension _ _ ifs => ifs end.

(** Python's [len]. *)
Definition len {A : Type} (l : list A) : Z := Z.of_nat (List.length l).

(** ** ast.NodeVisitor.generic_visit

    [generic_visit] walks the fields of a node in order and calls
    [visit] on every node found in them: on each item of a list field,
    and on a field that holds a node (a field that is None is skipped). *)

Section GenericVisit.
Context {S : Type}.

Definition visit_all {A : Type} (visit : A -> S -> S) (l : list A) (self : S) : S :=
  fold_left (fun s x => visit x s) l self.

Definition visit_opt {A : Type} (visit : A -> S -> S) (o : option A) (self : S) : S :=
  match o with
  | Some x => visit x self
  | None => self
  end.
End GenericVisit.

(** ** CyclomaticComplexityCalculator *)

Record CyclomaticComplexityCalculator : Type :=
  { complexity : Z }.

Module Calculator.

(** [__init__]: [self.complexity = 1]. *)
Definition init : CyclomaticComplexityCalculator := {| complexity := 1 |}.

(** [self.complexity += k]. *)
Definition add (k : Z) (self : CyclomaticComplexityCalculator) :
  CyclomaticComplexityCalculator :=
  {| complexity := complexity self + k |}.

(** The loop shared by [visit_ListComp], [visit_SetComp],
    [visit_DictComp] and [visit_GeneratorExp]:
    [for generator in node.generators: if generator.ifs: += len(ifs)]. *)
Definition count_filters (generators : list comprehension)
           (self : CyclomaticComplexityCalculator) :=
  fold_left
    (fun s g =>
       match comprehension_ifs g with
       | [] => s
       | _ :: _ => add (len (comprehension_ifs g)) s
       end)
    generators self.

(** [visit] on the expression classes.  BoolOp and the four
    comprehension classes have a handler; every other class falls to
    [generic_visit]. *)
Fixpoint visit_expr (e : expr) (self : CyclomaticComplexityCalculator)
         {struct e} : CyclomaticComplexityCalculator :=
  match e with
  | BoolOp op values =>
      (* [isinstance(node.op, (ast.And, ast.Or))] holds for both operators *)
      let self := match op with
                  | And | Or => add (len values - 1) self
                  end in
      visit_all visit_expr values self
  | Lambda args body =>
      visit_expr body (visit_arguments args self)
  | ListComp elt generators
  | SetComp elt generators
  | GeneratorExp elt generators =>
      let self := count_filters generators self in
      visit_all visit_comprehension generators (visit_expr elt self)
  | DictComp key value generators =>
      let self := count_filters generators self in
      visit_all visit_comprehension generators
                (visit_expr value (visit_expr key self))
  | Constant _ => self
  | Attribute value _ => visit_expr value self
  | Name _ => self
  | OtherExpr operands => visit_all visit_expr operands self
  end
with visit_comprehension (g : comprehension)
         (self : CyclomaticComplexityCalculator)
         {struct g} : CyclomaticComplexityCalculator :=
  match g with
  | Comprehension target iter ifs =>
      visit_all visit_expr ifs (visit_expr iter (visit_expr target self))
  end
with visit_arguments (a : arguments) (self : CyclomaticComplexityCalculator)
         {struct a} : CyclomaticComplexityCalculator :=
  match a with
  | Arguments posonlyargs args vararg kwonlyargs kw_defaults kwarg defaults =>
      let self := visit_all visit_arg posonlyargs self in
      let self := visit_all visit_arg args self in
      let self := visit_opt visit_arg vararg self in
      let self := visit_all visit_arg kwonlyargs self in
      let self := visit_all (visit_opt visit_expr) kw_defaults self in
      let self := visit_opt visit_arg kwarg self in
      visit_all visit_expr defaults self
  end
with visit_arg (a : arg) (self : CyclomaticComplexityCalculator)
         {struct a} : CyclomaticComplexityCalculator :=
  match a with
  | Arg _ annotation => visit_opt visit_expr annotation self
  end.

Definition visit_withitem (w : withitem)
           (self : CyclomaticComplexityCalculator) :=
  visit_opt visit_expr (optional_vars w) (visit_expr (context_expr w) self).

(** [visit] on statements.  If, While, For, AsyncFor, With, AsyncWith
    and ExceptHandler have a handler that adds one and then calls
    [generic_visit]; FunctionDef, AsyncFunctionDef, ClassDef and all
    the rest have none, so [generic_visit] walks straight into them. *)
Fixpoint visit_stmt (s : stmt) (self : CyclomaticComplexityCalculator)
         {struct s} : CyclomaticComplexityCalculator :=
  match s with
  | FunctionDef _ args body decorator_list returns _ _
  | AsyncFunctionDef _ args body decorator_list returns _ _ =>
      let self := visit_arguments args self in
      let self := visit_all visit_stmt body self in
      let self := visit_all visit_expr decorator_list self in
      visit_opt visit_expr returns self
  | ClassDef _ bases keywords body decorator_list _ _ =>
      let self := visit_all visit_expr bases self in
      let self := visit_all visit_expr keywords self in
      let self := visit_all visit_stmt body self in
      visit_all visit_expr decorator_list self
  | For target iter body orelse
  | AsyncFor target iter body orelse =>
      let self := add 1 self in
      let self := visit_expr target self in
      let self := visit_expr iter self in
      let self := visit_all visit_stmt body self in
      visit_all visit_stmt orelse self
  | While test body orelse
  | If test body orelse =>
      let self := add 1 self in
      let self := visit_expr test self in
      let self := visit_all visit_stmt body self in
      visit_all visit_stmt orelse self
  | With items body
  | AsyncWith items body =>
      let self := add 1 self in
      let self := visit_all visit_withitem items self in
      visit_all visit_stmt body self
  | Match subject cases =>
      visit_all visit_match_case cases (visit_expr subject self)
  | Try body handlers orelse finalbody
  | TryStar body handlers orelse finalbody =>
      let self := visit_all visit_stmt body self in
      let self := visit_all visit_excepthandler handlers self in
      let self := visit_all visit_stmt orelse self in
      visit_all visit_stmt finalbody self
  | Import _ _ => self
  | ImportFrom _ _ _ _ => self
  | OtherStmt operands => visit_all visit_expr operands self
  end
with visit_excepthandler (h : excepthandler)
         (self : CyclomaticComplexityCalculator)
         {struct h} : CyclomaticComplexityCalculator :=
  match h with
  | ExceptHandler type _ body =>
      let self := add 1 self in
      let self := visit_opt visit_expr type self in
      visit_all visit_stmt body self
  end
with visit_match_case (c : match_case)
         (self : CyclomaticComplexityCalculator)
         {struct c} : CyclomaticComplexityCalculator :=
  match c with
  | MatchCase pattern guard body =>
      let self := visit_all visit_expr pattern self in
      let self := visit_opt visit_expr guard self in
      visit_all visit_stmt body self
  end.

End Calculator.

(** [complexity_calc = CyclomaticComplexityCalculator();
     complexity_calc.visit(node); complexity_calc.complexity]
    as [visit_FunctionDef] of the extractor runs it on a declaration. *)
Definition cyclomatic_complexity_of (node : stmt) : Z :=
  complexity (Calculator.visit_stmt node Calculator.init).

(** ** The nodes of a sub-tree, as [ast.walk] enumerates them

    Each node of a sub-tree is listed once, by its class and the sizes
    a handler of the calculator reads off it: the number of operands of
    a BoolOp, the number of [ifs] of a comprehension clause. *)

Inductive node_class : Type :=
  | K_If | K_While | K_For | K_AsyncFor
  | K_ExceptHandler
  | K_With | K_AsyncWith
  | K_BoolOp (operands : nat)
  | K_comprehension (filters : nat)
  | K_FunctionDef | K_AsyncFunctionDef | K_ClassDef | K_Lambda
  | K_other.

Definition walk_opt {A : Type} (walk : A -> list node_class) (o : option A) :
  list node_class :=
  match o with
  | Some x => walk x
  | None => []
  end.

Fixpoint walk_expr (e : expr) {struct e} : list node_class :=
  match e with
  | BoolOp _ values => K_BoolOp (List.length values) :: flat_map walk_expr values
  | Lambda args body => K_Lambda :: walk_arguments args ++ walk_expr body
  | ListComp elt generators
  | SetComp elt generators
  | GeneratorExp elt generators =>
      K_other :: walk_expr elt ++ flat_map walk_comprehension generators
  | DictComp key value generators =>
      K_other :: walk_expr key ++ walk_expr value
              ++ flat_map walk_comprehension generators
  | Constant _ => [K_other]
  | Attribute value _ => K_other :: walk_expr value
  | Name _ => [K_other]
  | OtherExpr operands => K_other :: flat_map walk_expr operands
  end
with walk_comprehension (g : comprehension) {struct g} : list node_class :=
  match g with
  | Comprehension target iter ifs =>
      K_comprehension (List.length ifs)
        :: walk_expr target ++ walk_expr iter ++ flat_map walk_expr ifs
  end
with walk_arguments (a : arguments) {struct a} : list node_class :=
  match a with
  | Arguments posonlyargs args vararg kwonlyargs kw_defaults kwarg defaults =>
      K_other
        :: flat_map walk_arg posonlyargs ++ flat_map walk_arg args
        ++ walk_opt walk_arg vararg ++ flat_map walk_arg kwonlyargs
        ++ flat_map (walk_opt walk_expr) kw_defaults
        ++ walk_opt walk_arg kwarg ++ flat_map walk_expr defaults
  end
with walk_arg (a : arg) {struct a} : list node_class :=
  match a with
  | Arg _ annotation => K_other :: walk_opt walk_expr annotation
  end.

Definition walk_withitem (w : withitem) : list node_class :=
  K_other :: walk_expr (context_expr w) ++ walk_opt walk_expr (optional_vars w).

Fixpoint walk_stmt (s : stmt) {struct s} : list node_class :=
  match s with
  | FunctionDef _ args body decorator_list returns _ _ =>
      K_FunctionDef
        :: walk_arguments args ++ flat_map walk_stmt body
        ++ flat_map walk_expr decorator_list ++ walk_opt walk_expr returns
  | AsyncFunctionDef _ args body decorator_list returns _ _ =>
      K_AsyncFunctionDef
        :: walk_arguments args ++ flat_map walk_stmt body
        ++ flat_map walk_expr decorator_list ++ walk_opt walk_expr returns
  | ClassDef _ bases keywords body decorator_list _ _ =>
      K_ClassDef
        :: flat_map walk_expr bases ++ flat_map walk_expr keywords
        ++ flat_map walk_stmt body ++ flat_map walk_expr decorator_list
  | For target iter body orelse =>
      K_For :: walk_expr target ++ walk_expr iter
            ++ flat_map walk_stmt body ++ flat_map walk_stmt orelse
  | AsyncFor target iter body orelse =>
      K_AsyncFor :: walk_expr target ++ walk_expr iter
                 ++ flat_map walk_stmt body ++ flat_map walk_stmt orelse
  | While test body orelse =>
      K_While :: walk_expr test
              ++ flat_map walk_stmt body ++ flat_map walk_stmt orelse
  | If test body orelse =>
      K_If :: walk_expr test
           ++ flat_map walk_stmt body ++ flat_map walk_stmt orelse
  | With items body =>
      K_With :: flat_map walk_withitem items ++ flat_map walk_stmt body
  | AsyncWith items body =>
      K_AsyncWith :: flat_map walk_withitem items ++ flat_map walk_stmt body
  | Match subject cases =>
      K_other :: walk_expr subject ++ flat_map walk_match_case cases
  | Try body handlers orelse finalbody
  | TryStar body handlers orelse finalbody =>
      K_other
        :: flat_map walk_stmt body ++ flat_map walk_excepthandler handlers
        ++ flat_map walk_stmt orelse ++ flat_map walk_stmt finalbody
  | Import _ _ => [K_other]
  | ImportFrom _ _ _ _ => [K_other]
  | OtherStmt operands => K_other :: flat_map walk_expr operands
  end
with walk_excepthandler (h : excepthandler) {struct h} : list node_class :=
  match h with
  | ExceptHandler type _ body =>
      K_ExceptHandler :: walk_opt walk_expr type ++ flat_map walk_stmt body
  end
with walk_match_case (c : match_case) {struct c} : list node_class :=
  match c with
  | MatchCase pattern guard body =>
      K_other :: flat_map walk_expr pattern ++ walk_opt walk_expr guard
              ++ flat_map walk_stmt body
  end.

(** The increment the specification gives each construct. *)
Definition increment (k : node_class) : Z :=
  match k with
  | K_If => 1
  | K_While | K_For | K_AsyncFor => 1
  | K_ExceptHandler => 1
  | K_With | K_AsyncWith => 1
  | K_BoolOp operands => Z.of_nat operands - 1
  | K_comprehension filters => Z.of_nat filters
  | K_FunctionDef | K_AsyncFunctionDef | K_ClassDef | K_Lambda | K_other => 0
  end.

Definition Zsum (l : list Z) : Z := fold_right Z.add 0 l.

Definition score (l : list node_class) : Z := Zsum (map increment l).

(** ** Python strings, truth values and text formatting

    A [str] is modelled by [string] (code points 0 to 255). *)

(** Truth value of an attribute that holds None or a [str]:
    [if self.current_class:], [alias.asname if alias.asname else ...],
    [node.module if node.module else ""]. *)
Definition truthy (o : option string) : bool :=
  match o with
  | None => false
  | Some "" => false
  | Some _ => true
  end.

(** [x if x else d] on such an attribute. *)
Definition or_else (o : option string) (d : string) : string :=
  match o with
  | Some s => if truthy o then s else d
  | None => d
  end.

(** [str(n)] of an int. *)
Definition str_of_int (z : Z) : string := NilZero.string_of_int (Z.to_int z).

(** [str(annotation.value)] of a literal constant. *)
Definition str_of_constant (c : constant) : string :=
  match c with
  | CNone => "None"
  | CBool true => "True"
  | CBool false => "False"
  | CStr s => s
  | CInt z => str_of_int z
  | CEllipsis => "Ellipsis"
  | COther text => text
  end.

(** ** json.dumps *)

Module Json.

Inductive value : Type :=
  | Str (s : string)
  | Int (z : Z)
  | Arr (items : list value)
  | Obj (members : list (string * value)).

Definition hex_digit (n : N) : ascii :=
  nth (N.to_nat n)
      (list_ascii_of_string "0123456789abcdef") "0"%char.

Definition quote : string := String (ascii_of_nat 34) EmptyString.

(** [json.encoder.py_encode_basestring_ascii] on one character. *)
Definition escape_char (c : ascii) : string :=
  let n := N_of_ascii c in
  if (n =? 34)%N then String.append "\" quote
  else if (n =? 92)%N then "\\"
  else if (n =? 10)%N then "\n"
  else if (n =? 13)%N then "\r"
  else if (n =? 9)%N then "\t"
  else if (n =? 8)%N then "\b"
  else if (n =? 12)%N then "\f"
  else if ((32 <=? n) && (n <=? 126))%N then String c EmptyString
  else String.append "\u00"
         (String (hex_digit (n / 16)) (String (hex_digit (n mod 16)) EmptyString)).

Fixpoint escape (s : string) : string :=
  match s with
  | EmptyString => EmptyString
  | String c rest => String.append (escape_char c) (escape rest)
  end.

Definition encode_str (s : string) : string :=
  String.append (String.append quote (escape s)) quote.

Fixpoint dumps (item_separator key_separator : string) (v : value)
         {struct v} : string :=
  match v with
  | Str s => encode_str s
  | Int z => str_of_int z
  | Arr items =>
      String.append "["
        (String.append
           (String.concat item_separator
              (map (dumps item_separator key_separator) items))
           "]")
  | Obj members =>
      String.append "{"
        (String.append
           (String.concat item_separator
              (map (fun m =>
                      String.append (encode_str (fst m))
                        (String.append key_separator
                           (dumps item_separator key_separator (snd m))))
                   members))
           "}")
  end.

(** [json.dumps(v)]: the default separators. *)
Definition dumps_default : value -> string := dumps ", " ": ".

(** [json.dumps(v, indent=None, separators=(',', ':'))]. *)
Definition dumps_compact : value -> string := dumps "," ":".

End Json.

(** ** Exceptions

    The try block of [main] and of [extract] is a computation that
    either returns or raises; every exception below is a subclass of
    [Exception] ([IndentationError] and [TabError] are [SyntaxError]s). *)

Inductive exception : Type :=
  | SyntaxError
  | OSError
  | UnicodeDecodeError
  | ValueError
  | RecursionError
  | MemoryError.

Inductive result (A : Type) : Type :=
  | Ok (a : A)
  | Raise (e : exception).
Arguments Ok {A} a.
Arguments Raise {A} e.

Definition bind {A B : Type} (m : result A) (k : A -> result B) : result B :=
  match m with
  | Ok a => k a
  | Raise e => Raise e
  end.

Notation "x <- m ;; k" := (bind m (fun x => k))
  (at level 61, m at next level, right associativity).

(** [try: m  except SyntaxError: h]. *)
Definition except_SyntaxError {A : Type} (m : result A) (h : result A) :
  result A :=
  match m with
  | Raise SyntaxError => h
  | _ => m
  end.

(** ** The records the extractor builds *)

(** The dict of one parameter or return value. *)
Module Param.
Record t : Type := Build { name : string; type : string }.
End Param.

(** class PythonASTNode. *)
Module Node.
Record t : Type :=
  Build {
      type : string;
      name : string;
      start_line : Z;
      end_line : Z;
      parameter_count : Z;
      return_count : Z;
      parameters : list Param.t;
      return_values : list Param.t;
      cyclomatic_complexity : Z;
      parent : string;
      decorators : list string;
      base_classes : list string
    }.

(** [__init__(self, node_type, name, start_line, end_line)]. *)
Definition init (node_type name : string) (start_line end_line : Z) : t :=
  {| type := node_type;
     name := name;
     start_line := start_line;
     end_line := end_line;
     parameter_count := 0;
     return_count := 0;
     parameters := [];
     return_values := [];
     cyclomatic_complexity := 1;
     parent := "";
     decorators := [];
     base_classes := [] |}.
End Node.
Definition PythonASTNode : Type := Node.t.

(** The dict [import_info]. *)
Module ImportInfo.
Record t : Type :=
  Build { module : string; name : string; alias : string; line : Z }.
End ImportInfo.

(** The dict [extract] returns. *)
Module Result.
Record t : Type :=
  Build {
      module : string;
      nodes : list PythonASTNode;
      imports : list ImportInfo.t;
      relationships : list Json.value
    }.

Definition empty (module : string) : t :=
  {| module := module; nodes := []; imports := []; relationships := [] |}.
End Result.

(** class PythonASTExtractor: the attributes of [self].  ([source_lines]
    is set by [__init__] and never read.) *)
Record PythonASTExtractor : Type :=
  { source_code : string;
    file_path : string;
    nodes : list PythonASTNode;
    imports : list ImportInfo.t;
    relationships : list Json.value;
    current_class : option string }.

(** [PythonASTExtractor(source_code, file_path)]. *)
Definition new_extractor (source_code file_path : string) : PythonASTExtractor :=
  {| source_code := source_code;
     file_path := file_path;
     nodes := [];
     imports := [];
     relationships := [];
     current_class := None |}.

(** [self.nodes.append(n)]. *)
Definition nodes_append (n : PythonASTNode) (self : PythonASTExtractor) :=
  {| source_code := source_code self;
     file_path := file_path self;
     nodes := nodes self ++ [n];
     imports := imports self;
     relationships := relationships self;
     current_class := current_class self |}.

(** [self.imports.append(i)]. *)
Definition imports_append (i : ImportInfo.t) (self : PythonASTExtractor) :=
  {| source_code := source_code self;
     file_path := file_path self;
     nodes := nodes self;
     imports := imports self ++ [i];
     relationships := relationships self;
     current_class := current_class self |}.

(** [self.current_class = c]. *)
Definition set_current_class (c : option string) (self : PythonASTExtractor) :=
  {| source_code := source_code self;
     file_path := file_path self;
     nodes := nodes self;
     imports := imports self;
     relationships := relationships self;
     current_class := c |}.

(** ** posixpath, as the interpreter evaluates [os.path] on a POSIX host

    Models of the two library functions [_get_module_name] calls, used
    to run the extractor on concrete paths. *)

Module Posix.

Fixpoint rfind_from (c : ascii) (s : string) (i last : Z) : Z :=
  match s with
  | EmptyString => last
  | String d rest =>
      rfind_from c rest (i + 1) (if Ascii.eqb c d then i else last)
  end.

(** [s.rfind(c)]: the last index of [c], or -1. *)
Definition rfind (c : ascii) (s : string) : Z := rfind_from c s 0 (-1).

(** [s[:i]] and [s[i:]] for [0 <= i]. *)
Definition take (i : Z) (s : string) : string :=
  String.substring 0 (Z.to_nat i) s.
Definition drop (i : Z) (s : string) : string :=
  String.substring (Z.to_nat i) (String.length s - Z.to_nat i) s.

(** [posixpath.basename]: [i = p.rfind('/') + 1; return p[i:]]. *)
Definition basename (p : string) : string := drop (rfind "/" p + 1) p.

(** [genericpath._splitext]: the extension starts at the last dot of
    the last path component, unless only dots come before it. *)
Definition splitext (p : string) : string * string :=
  let sepIndex := rfind "/" p in
  let dotIndex := rfind "." p in
  if (sepIndex <? dotIndex)
     && existsb (fun c => negb (Ascii.eqb c "."))
          (list_ascii_of_string
             (String.substring (Z.to_nat (sepIndex + 1))
                (Z.to_nat (dotIndex - (sepIndex + 1))) p))
  then (take dotIndex p, drop dotIndex p)
  else (p, "").

End Posix.

(** ** The interpreter and its library

    What the extractor takes from the interpreter and its library:
    - [ast_unparse]: [ast.unparse], [None] where it raises or where the
      [ast] module has no [unparse];
    - [walk_max_lineno]: the largest [lineno] over [ast.walk(node)], the
      fallback of [_get_end_line] (line numbers of inner nodes are not
      part of the tree above);
    - [os_path_basename], [os_path_splitext]: [os.path];
    - [read_file]: [open(path, 'r', encoding='utf-8')] and [f.read()];
    - [ast_parse]: [ast.parse(source, filename=...)];
    - [exceeds_recursion_limit]: the trees on which the interpreter
      stops the traversal with a [RecursionError]. *)

Class Interpreter : Type :=
  { ast_unparse : expr -> option string;
    walk_max_lineno : stmt -> Z;
    os_path_basename : string -> string;
    os_path_splitext : string -> string * string;
    read_file : string -> result string;
    ast_parse : string -> string -> result ast_module;
    exceeds_recursion_limit : ast_module -> bool }.

(** ** PythonASTExtractor *)

Section Extractor.

Context {interpreter : Interpreter}.

(** [_get_annotation] on an annotation that is not None.  Nothing in
    the first three branches raises; the [except] only ever answers
    for [ast.unparse]. *)
Fixpoint get_annotation_node (annotation : expr) : string :=
  match annotation with
  | Name id => id
  | Constant value => str_of_constant value
  | Attribute value attr =>
      String.append (get_annotation_node value) (String.append "." attr)
  | _ =>
      match ast_unparse annotation with
      | Some text => text
      | None => ""
      end
  end.

Definition _get_annotation (annotation : option expr) : string :=
  match annotation with
  | None => ""
  | Some a => get_annotation_node a
  end.

(** [_get_name_from_node]. *)
Fixpoint _get_name_from_node (node : expr) : string :=
  match node with
  | Name id => id
  | Attribute value attr =>
      String.append (_get_name_from_node value) (String.append "." attr)
  | Constant value => str_of_constant value
  | _ =>
      match ast_unparse node with
      | Some text => text
      | None => ""
      end
  end.

(** [_get_end_line]: [node.end_lineno] when it is there and not zero. *)
Definition _get_end_line (node : stmt) (end_lineno : option Z) : Z :=
  match end_lineno with
  | Some e => if e =? 0 then walk_max_lineno node else e
  | None => walk_max_lineno node
  end.

(** The dict built for one parameter:
    [param_type = self._get_annotation(a.annotation) if a.annotation else ""]. *)
Definition parameter (prefix : string) (a : arg) : Param.t :=
  match a with
  | Arg arg_name annotation =>
      {| Param.name := String.append prefix arg_name;
         Param.type := match annotation with
                       | Some _ => _get_annotation annotation
                       | None => ""
                       end |}
  end.

(** The parameter list of [visit_FunctionDef]: [args.args], then
    [args.vararg], then [args.kwarg]. *)
Definition collect_parameters (args : arguments) : list Param.t :=
  match args with
  | Arguments _ regular vararg _ _ kwarg _ =>
      let parameters := map (parameter "") regular in
      let parameters :=
        match vararg with
        | Some a => parameters ++ [parameter "*" a]
        | None => parameters
        end in
      match kwarg with
      | Some a => parameters ++ [parameter "**" a]
      | None => parameters
      end
  end.

(** [visit_FunctionDef]; [visit_AsyncFunctionDef] calls it on its own
    node.  The body is not visited. *)
Definition visit_FunctionDef (node : stmt) (self : PythonASTExtractor) :
  PythonASTExtractor :=
  match node with
  | FunctionDef name args _ decorator_list returns lineno end_lineno
  | AsyncFunctionDef name args _ decorator_list returns lineno end_lineno =>
      let '(node_type, parent) :=
        if truthy (current_class self)
        then ("method", or_else (current_class self) "")
        else ("function", "") in
      let parameters := collect_parameters args in
      let '(return_values, return_count) :=
        match returns with
        | Some _ =>
            ([{| Param.name := ""; Param.type := _get_annotation returns |}], 1)
        | None => ([], 0)
        end in
      nodes_append
        {| Node.type := node_type;
           Node.name := name;
           Node.start_line := lineno;
           Node.end_line := _get_end_line node end_lineno;
           Node.parameter_count := len parameters;
           Node.return_count := return_count;
           Node.parameters := parameters;
           Node.return_values := return_values;
           Node.cyclomatic_complexity := cyclomatic_complexity_of node;
           Node.parent := parent;
           Node.decorators := map _get_name_from_node decorator_list;
           Node.base_classes := [] |}
        self
  | _ => self
  end.

(** [visit_ClassDef]; [generic_visit] is the walk over the class's
    children, which [visit] below supplies. *)
Definition visit_ClassDef
           (generic_visit : PythonASTExtractor -> PythonASTExtractor)
           (node : stmt) (self : PythonASTExtractor) : PythonASTExtractor :=
  match node with
  | ClassDef name bases _ _ decorator_list lineno end_lineno =>
      let class_node :=
        {| Node.type := "class";
           Node.name := name;
           Node.start_line := lineno;
           Node.end_line := _get_end_line node end_lineno;
           Node.parameter_count := 0;
           Node.return_count := 0;
           Node.parameters := [];
           Node.return_values := [];
           Node.cyclomatic_complexity := 1;
           Node.parent := "";
           Node.decorators := map _get_name_from_node decorator_list;
           Node.base_classes := map _get_name_from_node bases |} in
      let self := nodes_append class_node self in
      let previous_class := current_class self in
      let self := set_current_class (Some name) self in
      let self := generic_visit self in
      set_current_class previous_class self
  | _ => self
  end.

(** The dict built for one name of [visit_Import]. *)
Definition import_info (lineno : Z) (a : alias) : ImportInfo.t :=
  {| ImportInfo.module := alias_name a;
     ImportInfo.name := or_else (asname a) (alias_name a);
     ImportInfo.alias := or_else (asname a) "";
     ImportInfo.line := lineno |}.

Definition visit_Import (node : stmt) (self : PythonASTExtractor) :=
  match node with
  | Import names lineno =>
      fold_left (fun self a => imports_append (import_info lineno a) self)
                names self
  | _ => self
  end.

(** The dict built for one name of [visit_ImportFrom], where [module]
    is [node.module if node.module else ""]. *)
Definition import_from_info (module : string) (lineno : Z) (a : alias) :
  ImportInfo.t :=
  {| ImportInfo.module :=
       match module with
       | "" => alias_name a
       | _ => String.append module (String.append "." (alias_name a))
       end;
     ImportInfo.name := or_else (asname a) (alias_name a);
     ImportInfo.alias := or_else (asname a) "";
     ImportInfo.line := lineno |}.

Definition visit_ImportFrom (node : stmt) (self : PythonASTExtractor) :=
  match node with
  | ImportFrom module names _ lineno =>
      let module := or_else module "" in
      fold_left
        (fun self a => imports_append (import_from_info module lineno a) self)
        names self
  | _ => self
  end.

(** [visit]: the handler of the node's class when the extractor has
    one, [generic_visit] otherwise.  The extractor has no handler for
    any expression class, and no statement is below an expression, so
    visiting an expression leaves [self] as it is: only the statement
    children of a node are walked. *)
Fixpoint visit (node : stmt) (self : PythonASTExtractor) {struct node} :
  PythonASTExtractor :=
  match node with
  | ClassDef _ _ _ body _ _ _ =>
      visit_ClassDef (visit_all visit body) node self
  | FunctionDef _ _ _ _ _ _ _ => visit_FunctionDef node self
  | AsyncFunctionDef _ _ _ _ _ _ _ => visit_FunctionDef node self
  | Import _ _ => visit_Import node self
  | ImportFrom _ _ _ _ => visit_ImportFrom node self
  | For _ _ body orelse
  | AsyncFor _ _ body orelse
  | While _ body orelse
  | If _ body orelse =>
      visit_all visit orelse (visit_all visit body self)
  | With _ body
  | AsyncWith _ body => visit_all visit body self
  | Match _ cases => visit_all visit_match_case cases self
  | Try body handlers orelse finalbody
  | TryStar body handlers orelse finalbody =>
      let self := visit_all visit body self in
      let self := visit_all visit_excepthandler handlers self in
      let self := visit_all visit orelse self in
      visit_all visit finalbody self
  | OtherStmt _ => self
  end
with visit_excepthandler (h : excepthandler) (self : PythonASTExtractor)
       {struct h} : PythonASTExtractor :=
  match h with
  | ExceptHandler _ _ body => visit_all visit body self
  end
with visit_match_case (c : match_case) (self : PythonASTExtractor)
       {struct c} : PythonASTExtractor :=
  match c with
  | MatchCase _ _ body => visit_all visit body self
  end.

(** [self.visit(tree)] on the Module node: [generic_visit] over its body. *)
Definition visit_Module (tree : ast_module) (self : PythonASTExtractor) :=
  match tree with
  | PyModule body => visit_all visit body self
  end.

(** [_get_module_name]. *)
Definition _get_module_name (self : PythonASTExtractor) : string :=
  fst (os_path_splitext (os_path_basename (file_path self))).

(** [extract]: parse and visit; a [SyntaxError] raised on the way is
    answered with the empty result. *)
Definition extract (self : PythonASTExtractor) : result Result.t :=
  except_SyntaxError
    (tree <- ast_parse (source_code self) (file_path self) ;;
     self <- (if exceeds_recursion_limit tree
              then Raise RecursionError
              else Ok (visit_Module tree self)) ;;
     Ok {| Result.module := _get_module_name self;
           Result.nodes := nodes self;
           Result.imports := imports self;
           Result.relationships := relationships self |})
    (Ok (Result.empty (_get_module_name self))).

End Extractor.

(** ** Serialisation and the command line *)

Definition param_to_dict (p : Param.t) : Json.value :=
  Json.Obj [("name", Json.Str (Param.name p)); ("type", Json.Str (Param.type p))].

(** [_node_to_dict]. *)
Definition _node_to_dict (node : PythonASTNode) : Json.value :=
  Json.Obj
    [("type", Json.Str (Node.type node));
     ("name", Json.Str (Node.name node));
     ("start_line", Json.Int (Node.start_line node));
     ("end_line", Json.Int (Node.end_line node));
     ("parameter_count", Json.Int (Node.parameter_count node));
     ("return_count", Json.Int (Node.return_count node));
     ("parameters", Json.Arr (map param_to_dict (Node.parameters node)));
     ("return_values", Json.Arr (map param_to_dict (Node.return_values node)));
     ("cyclomatic_complexity", Json.Int (Node.cyclomatic_complexity node));
     ("parent", Json.Str (Node.parent node));
     ("decorators", Json.Arr (map Json.Str (Node.decorators node)));
     ("base_classes", Json.Arr (map Json.Str (Node.base_classes node)))].

Definition import_to_dict (i : ImportInfo.t) : Json.value :=
  Json.Obj
    [("module", Json.Str (ImportInfo.module i));
     ("name", Json.Str (ImportInfo.name i));
     ("alias", Json.Str (ImportInfo.alias i));
     ("line", Json.Int (ImportInfo.line i))].

(** The document of a result: the dict [extract] returns. *)
Definition document (r : Result.t) : Json.value :=
  Json.Obj
    [("module", Json.Str (Result.module r));
     ("nodes", Json.Arr (map _node_to_dict (Result.nodes r)));
     ("imports", Json.Arr (map import_to_dict (Result.imports r)));
     ("relationships", Json.Arr (Result.relationships r))].

(** The document [main] prints on a usage error and in its [except]. *)
Definition empty_document : Json.value :=
  Json.Obj
    [("module", Json.Str "");
     ("nodes", Json.Arr []);
     ("imports", Json.Arr []);
     ("relationships", Json.Arr [])].

(** What a run leaves behind: the lines printed and the exit status. *)
Record outcome : Type :=
  { stdout : list string; exit_status : Z }.

(** [main], on [sys.argv].  Returning from [main] ends the process with
    status 0. *)
Definition main {interpreter : Interpreter} (argv : list string) : outcome :=
  if negb (len argv =? 2)
  then {| stdout := [Json.dumps_default empty_document]; exit_status := 1 |}
  else
    let file_path := nth 1 argv "" in
    match
      (source_code <- read_file file_path ;;
       result <- extract (new_extractor source_code file_path) ;;
       Ok (Json.dumps_compact (document result)))
    with
    | Ok line => {| stdout := [line]; exit_status := 0 |}
    | Raise _ =>
        {| stdout := [Json.dumps_default empty_document]; exit_status := 0 |}
    end.

(** What [main] leaves behind when its [except] runs. *)
Definition soft_failure : outcome :=
  {| stdout := [Json.dumps_default empty_document]; exit_status := 0 |}.

(** ** The score of a sub-tree, in the specification's words

    One for each conditional, loop, exception handler and with-block,
    the operands less one of each boolean combination, and the filter
    conditions of each comprehension clause. *)

Definition is_conditional (k : node_class) : bool :=
  match k with K_If => true | _ => false end.

Definition is_loop (k : node_class) : bool :=
  match k with K_For | K_While | K_AsyncFor => true | _ => false end.

Definition is_handler (k : node_class) : bool :=
  match k with K_ExceptHandler => true | _ => false end.

Definition is_with (k : node_class) : bool :=
  match k with K_With | K_AsyncWith => true | _ => false end.

Definition count (p : node_class -> bool) (l : list node_class) : Z :=
  len (filter p l).

Definition boolop_extra (l : list node_class) : Z :=
  Zsum (map (fun k => match k with
                      | K_BoolOp operands => Z.of_nat operands - 1
                      | _ => 0
                      end) l).

Definition filter_conditions (l : list node_class) : Z :=
  Zsum (map (fun k => match k with
                      | K_comprehension filters => Z.of_nat filters
                      | _ => 0
                      end) l).

Definition spec_score (l : list node_class) : Z :=
  count is_conditional l + count is_loop l + count is_handler l
  + count is_with l + boolop_extra l + filter_conditions l.

(** A branching construct: a node of a class the calculator counts. *)
Definition branching (k : node_class) : bool :=
  match k with
  | K_If | K_While | K_For | K_AsyncFor | K_ExceptHandler
  | K_With | K_AsyncWith | K_BoolOp _ => true
  | K_comprehension filters => negb (Nat.eqb filters 0)
  | K_FunctionDef | K_AsyncFunctionDef | K_ClassDef | K_Lambda | K_other => false
  end.

(** What the grammar gives a parsed tree: a boolean combination has at
    least two operands. *)
Definition well_formed_class (k : node_class) : bool :=
  match k with
  | K_BoolOp operands => Nat.leb 2 operands
  | _ => true
  end.

Definition well_formed (l : list node_class) : Prop :=
  Forall (fun k => well_formed_class k = true) l.

(** The filters [count_filters] adds for the clauses of a comprehension. *)
Definition filters_total (generators : list comprehension) : Z :=
  Zsum (map (fun g => len (comprehension_ifs g)) generators).

(** ** The statements of a tree and the class around them *)

Definition handler_body (h : excepthandler) : list stmt :=
  match h with ExceptHandler _ _ body => body end.

Definition case_body (c : match_case) : list stmt :=
  match c with MatchCase _ _ body => body end.

(** The statements directly below a statement. *)
Definition child_stmts (s : stmt) : list stmt :=
  match s with
  | FunctionDef _ _ body _ _ _ _
  | AsyncFunctionDef _ _ body _ _ _ _
  | ClassDef _ _ _ body _ _ _ => body
  | For _ _ body orelse
  | AsyncFor _ _ body orelse
  | While _ body orelse
  | If _ body orelse => body ++ orelse
  | With _ body
  | AsyncWith _ body => body
  | Match _ cases => flat_map case_body cases
  | Try body handlers orelse finalbody
  | TryStar body handlers orelse finalbody =>
      body ++ flat_map handler_body handlers ++ orelse ++ finalbody
  | Import _ _ | ImportFrom _ _ _ _ | OtherStmt _ => []
  end.

Definition is_callable (s : stmt) : bool :=
  match s with
  | FunctionDef _ _ _ _ _ _ _ | AsyncFunctionDef _ _ _ _ _ _ _ => true
  | _ => false
  end.

Definition is_definition (s : stmt) : bool :=
  match s with
  | FunctionDef _ _ _ _ _ _ _ | AsyncFunctionDef _ _ _ _ _ _ _
  | ClassDef _ _ _ _ _ _ _ => true
  | _ => false
  end.

(** The innermost class around the children of [s], when [c] is the
    innermost class around [s]. *)
Definition class_within (c : option string) (s : stmt) : option string :=
  match s with
  | ClassDef name _ _ _ _ _ _ => Some name
  | _ => c
  end.

(** [Encloses c s c' d]: statement [d] is [s] or lies below [s] outside
    the body of every callable, and [c'] is the innermost class whose
    body holds [d] ([c] when no class between [s] and [d] does). *)
Inductive Encloses : option string -> stmt -> option string -> stmt -> Prop :=
  | encloses_here (c : option string) (s : stmt) : Encloses c s c s
  | encloses_below (c : option string) (s child : stmt)
                   (c' : option string) (d : stmt) :
      is_callable s = false ->
      In child (child_stmts s) ->
      Encloses (class_within c s) child c' d ->
      Encloses c s c' d.

(** Every statement of a sub-tree, the bodies of callables included. *)
Fixpoint substmts (s : stmt) {struct s} : list stmt :=
  s :: match s with
       | FunctionDef _ _ body _ _ _ _
       | AsyncFunctionDef _ _ body _ _ _ _
       | ClassDef _ _ _ body _ _ _ => flat_map substmts body
       | For _ _ body orelse
       | AsyncFor _ _ body orelse
       | While _ body orelse
       | If _ body orelse => flat_map substmts body ++ flat_map substmts orelse
       | With _ body
       | AsyncWith _ body => flat_map substmts body
       | Match _ cases => flat_map substmts_case cases
       | Try body handlers orelse finalbody
       | TryStar body handlers orelse finalbody =>
           flat_map substmts body ++ flat_map substmts_handler handlers
           ++ flat_map substmts orelse ++ flat_map substmts finalbody
       | Import _ _ | ImportFrom _ _ _ _ | OtherStmt _ => []
       end
with substmts_handler (h : excepthandler) {struct h} : list stmt :=
  match h with
  | ExceptHandler _ _ body => flat_map substmts body
  end
with substmts_case (c : match_case) {struct c} : list stmt :=
  match c with
  | MatchCase _ _ body => flat_map substmts body
  end.

(** The statements of a sub-tree outside the body of every callable,
    each with the innermost class around it, in source order. *)
Fixpoint reached (c : option string) (s : stmt) {struct s} :
  list (option string * stmt) :=
  (c, s) :: match s with
            | FunctionDef _ _ _ _ _ _ _
            | AsyncFunctionDef _ _ _ _ _ _ _ => []
            | ClassDef name _ _ body _ _ _ =>
                flat_map (reached (Some name)) body
            | For _ _ body orelse
            | AsyncFor _ _ body orelse
            | While _ body orelse
            | If _ body orelse =>
                flat_map (reached c) body ++ flat_map (reached c) orelse
            | With _ body
            | AsyncWith _ body => flat_map (reached c) body
            | Match _ cases => flat_map (reached_case c) cases
            | Try body handlers orelse finalbody
            | TryStar body handlers orelse finalbody =>
                flat_map (reached c) body
                ++ flat_map (reached_handler c) handlers
                ++ flat_map (reached c) orelse
                ++ flat_map (reached c) finalbody
            | Import _ _ | ImportFrom _ _ _ _ | OtherStmt _ => []
            end
with reached_handler (c : option string) (h : excepthandler) {struct h} :
  list (option string * stmt) :=
  match h with
  | ExceptHandler _ _ body => flat_map (reached c) body
  end
with reached_case (c : option string) (m : match_case) {struct m} :
  list (option string * stmt) :=
  match m with
  | MatchCase _ _ body => flat_map (reached c) body
  end.

(** The statements in the body of a callable; none for another statement. *)
Definition hidden (s : stmt) : list stmt :=
  if is_callable s then flat_map substmts (child_stmts s) else [].

(** The statements [l] reaches together with those their callables hide. *)
Definition with_hidden (l : list (option string * stmt)) : list stmt :=
  map snd l ++ flat_map hidden (map snd l).

Definition module_body (tree : ast_module) : list stmt :=
  match tree with PyModule body => body end.

(** A declaration is told from every other by its name and line. *)
Definition key : Type := string * Z.

Definition definition_key (s : stmt) : list key :=
  match s with
  | FunctionDef name _ _ _ _ lineno _
  | AsyncFunctionDef name _ _ _ _ lineno _
  | ClassDef name _ _ _ _ lineno _ => [(name, lineno)]
  | _ => []
  end.

Definition record_key (r : PythonASTNode) : key :=
  (Node.name r, Node.start_line r).

(** The parameter list of a callable. *)
Definition callable_args (s : stmt) : option arguments :=
  match s with
  | FunctionDef _ args _ _ _ _ _ | AsyncFunctionDef _ args _ _ _ _ _ => Some args
  | _ => None
  end.

Definition opt_list {A B : Type} (f : A -> B) (o : option A) : list B :=
  match o with
  | Some x => [f x]
  | None => []
  end.

(** Every parameter a parameter list declares, in the order of the
    declaration: positional-only, positional-or-keyword, [*args],
    keyword-only, [**kwargs]. *)
Definition declared_parameters (args : arguments) : list arg :=
  match args with
  | Arguments posonlyargs regular vararg kwonlyargs _ kwarg _ =>
      posonlyargs ++ regular ++ opt_list (fun a => a) vararg
      ++ kwonlyargs ++ opt_list (fun a => a) kwarg
  end.

(** ** What one handler of the extractor emits *)

Section Handlers.

Context {interpreter : Interpreter}.

(** The records the handler of [d]'s class appends when the
    current-class register holds [c]. *)
Definition declare (c : option string) (d : stmt) : list PythonASTNode :=
  match d with
  | FunctionDef _ _ _ _ _ _ _
  | AsyncFunctionDef _ _ _ _ _ _ _ =>
      nodes (visit_FunctionDef
               d (set_current_class c (new_extractor "" "")))
  | ClassDef _ _ _ _ _ _ _ =>
      nodes (visit_ClassDef (fun self => self) d (new_extractor "" ""))
  | _ => []
  end.

(** The import records the handler of [d]'s class appends. *)
Definition import_records (d : stmt) : list ImportInfo.t :=
  match d with
  | Import _ _ => imports (visit_Import d (new_extractor "" ""))
  | ImportFrom _ _ _ _ => imports (visit_ImportFrom d (new_extractor "" ""))
  | _ => []
  end.

(** The extractor after the handlers have run on the statements [l],
each under the register it is paired with. *)
Definition emit (l : list (option string * stmt)) (self : PythonASTExtractor) :
  PythonASTExtractor :=
  {| source_code := source_code self;
     file_path := file_path self;
     nodes := nodes self ++ flat_map (fun p => declare (fst p) (snd p)) l;
     imports := imports self ++ flat_map (fun p => import_records (snd p)) l;
     relationships := relationships self;
     current_class := current_class self |}.

End Handlers.

(** ** Sample inputs *)

Module Sample.

(** A parameter list of plain positional parameters. *)
Definition positional (names : list string) : arguments :=
  Arguments [] (map (fun n => Arg n None) names) None [] [] None [].

Definition pass : stmt := OtherStmt [].

(** [testdata/calculator.py], as [ast.parse] reads it. *)
Definition calc_init : stmt :=
  FunctionDef "__init__" (positional ["self"])
    [OtherStmt [Attribute (Name "self") "value"; Constant (CInt 0)]]
    [] None 2 (Some 3).

Definition calc_add : stmt :=
  FunctionDef "add" (positional ["self"; "x"])
    [If (OtherExpr [Name "x"; Constant (CInt 0)])
        [OtherStmt [Attribute (Name "self") "value"; Name "x"]]
        [OtherStmt [Attribute (Name "self") "value";
                    OtherExpr [Name "abs"; Name "x"]]];
     OtherStmt [Attribute (Name "self") "value"]]
    [] None 5 (Some 10).

Definition calc_multiply : stmt :=
  FunctionDef "multiply" (positional ["self"; "x"; "y"])
    [OtherStmt [Name "result"; OtherExpr [Name "x"; Name "y"]];
     For (Name "i") (OtherExpr [Name "range"; Name "y"])
         [If (OtherExpr [OtherExpr [Name "i"; Constant (CInt 2)];
                         Constant (CInt 0)])
             [OtherStmt [Name "result"; Name "i"]]
             []]
         [];
     OtherStmt [Name "result"]]
    [] None 12 (Some 17).

Definition calc_main : stmt :=
  FunctionDef "main" (positional [])
    [OtherStmt [Name "calc"; OtherExpr [Name "Calculator"]];
     OtherStmt [OtherExpr [Attribute (Name "calc") "add"; Constant (CInt 10)]];
     OtherStmt [OtherExpr [Name "print";
                           OtherExpr [Attribute (Name "calc") "multiply";
                                      Constant (CInt 5); Constant (CInt 3)]]]]
    [] None 20 (Some 23).

Definition calculator_py : ast_module :=
  PyModule
    [ClassDef "Calculator" [] [] [calc_init; calc_add; calc_multiply]
              [] 1 (Some 17);
     calc_main;
     If (OtherExpr [Name "__name__"; Constant (CStr "__main__")])
        [OtherStmt [OtherExpr [Name "main"]]]
        []].

(** [def outer(): def inner(x): if x: pass] *)
Definition inner_def : stmt :=
  FunctionDef "inner" (positional ["x"]) [If (Name "x") [pass] []]
              [] None 2 (Some 4).
Definition outer_def : stmt :=
  FunctionDef "outer" (positional []) [inner_def] [] None 1 (Some 4).

(** The callable [node] with [body] for its body. *)
Definition with_body (body : list stmt) (node : stmt) : stmt :=
  match node with
  | FunctionDef name args _ decorator_list returns lineno end_lineno =>
      FunctionDef name args body decorator_list returns lineno end_lineno
  | AsyncFunctionDef name args _ decorator_list returns lineno end_lineno =>
      AsyncFunctionDef name args body decorator_list returns lineno end_lineno
  | _ => node
  end.

(** The callable [node] with [args] for its parameters. *)
Definition with_args (args : arguments) (node : stmt) : stmt :=
  match node with
  | FunctionDef name _ body decorator_list returns lineno end_lineno =>
      FunctionDef name args body decorator_list returns lineno end_lineno
  | AsyncFunctionDef name _ body decorator_list returns lineno end_lineno =>
      AsyncFunctionDef name args body decorator_list returns lineno end_lineno
  | _ => node
  end.

(** [def f(x=a or b): pass] *)
Definition default_def : stmt :=
  FunctionDef "f"
    (Arguments [] [Arg "x" None] None [] [] None
               [BoolOp Or [Name "a"; Name "b"]])
    [pass] [] None 1 (Some 2).

(** [def f(a, *, b): pass] *)
Definition kwonly_def : stmt :=
  FunctionDef "f"
    (Arguments [] [Arg "a" None] None [Arg "b" None] [None] None [])
    [pass] [] None 1 (Some 2).

(** [def f(a: int, *rest, **opts) -> str: pass] *)
Definition variadic_def : stmt :=
  FunctionDef "f"
    (Arguments [] [Arg "a" (Some (Name "int"))] (Some (Arg "rest" None))
               [] [] (Some (Arg "opts" None)) [])
    [pass] [] (Some (Name "str")) 1 (Some 2).

(** [from typing import Optional, Dict] on line 3. *)
Definition from_typing : stmt :=
  ImportFrom (Some "typing")
             [Alias "Optional" None; Alias "Dict" None] 0 3.

(** [def load(): from json import loads as parse] *)
Definition local_import_def : stmt :=
  FunctionDef "load" (positional [])
    [ImportFrom (Some "json") [Alias "loads" (Some "parse")] 0 2]
    [] None 1 (Some 2).

(** [class Outer: class Inner: def m(self): pass] *)
Definition nested_classes : stmt :=
  ClassDef "Outer" [] []
    [ClassDef "Inner" [] []
       [FunctionDef "m" (positional ["self"]) [pass] [] None 3 (Some 4)]
       [] 2 (Some 4)]
    [] 1 (Some 4).

(** An interpreter on a POSIX host holding the files [files], whose
    parser reads the text [source] as [tree] and rejects every other
    text with a [SyntaxError]. *)
Definition host (files : list (string * string)) (source : string)
           (tree : ast_module) : Interpreter :=
  {| ast_unparse := fun _ => None;
     walk_max_lineno := fun _ => 0;
     os_path_basename := Posix.basename;
     os_path_splitext := Posix.splitext;
     read_file :=
       fun path =>
         match find (fun f => String.eqb (fst f) path) files with
         | Some f => Ok (snd f)
         | None => Raise OSError
         end;
     ast_parse :=
       fun text _ => if String.eqb text source then Ok tree
                     else Raise SyntaxError;
     exceeds_recursion_limit := fun _ => false |}.

(** The result of [extract] on a file the host reads and parses. *)
Definition run_extract (h : Interpreter) (source path : string) : Result.t :=
  match @extract h (new_extractor source path) with
  | Ok result => result
  | Raise _ => Result.empty ""
  end.

Definition nth_node (n : nat) (result : Result.t) : PythonASTNode :=
  nth n (Result.nodes result) (Node.init "" "" 0 0).

(** A host with [testdata/calculator.py] and a file that does not parse. *)
Definition calc_host : Interpreter :=
  host [("testdata/calculator.py", "CALC"); ("pkg/bad.py", "def f(:")]
       "CALC" calculator_py.

(** A host whose file holds [def outer(): def inner(x): if x: pass]. *)
Definition outer_host : Interpreter :=
  host [("outer.py", "OUTER")] "OUTER" (PyModule [outer_def]).

(** A host whose file holds [class Outer: class Inner: def m(self): pass]. *)
Definition classes_host : Interpreter :=
  host [("classes.py", "CLASSES")] "CLASSES" (PyModule [nested_classes]).

(** A host whose file holds a from-import at the top and one in a
    function body. *)
Definition imports_host : Interpreter :=
  host [("imports.py", "IMPORTS")] "IMPORTS"
       (PyModule [from_typing; local_import_def]).

End Sample.

(** ** Shapes of trees the further properties speak of *)



(** [if t1: b1 / elif t2: b2 / ... / else: final], as the parser nests
    it: each elif is an If that is the whole else-branch of the one
    before. *)
Fixpoint elif_chain (clauses : list (expr * list stmt)) (final : list stmt) :
  list stmt :=
  match clauses with
  | [] => final
  | (test, body) :: rest => [If test body (elif_chain rest final)]
  end.

(** The score of the tests and bodies of the clauses of a chain. *)
Definition clauses_score (clauses : list (expr * list stmt)) : Z :=
  Zsum (map (fun clause => score (walk_expr (fst clause))
                           + score (flat_map walk_stmt (snd clause)))
            clauses).

(** The import records of one statement, in the order of its names. *)
Definition imports_of_stmt (s : stmt) : list ImportInfo.t :=
  match s with
  | Import names lineno => map (import_info lineno) names
  | ImportFrom module names _ lineno =>
      map (import_from_info (or_else module "") lineno) names
  | _ => []
  end.




Module MoreSamples.

(** [async def fetch(url): pass] on lines 1 to 2. *)
Definition async_def : stmt :=
  AsyncFunctionDef "fetch" (Sample.positional ["url"]) [Sample.pass]
                   [] None 1 (Some 2).

(** [@app.route / class View(base.View, Mixin): pass] *)
Definition decorated_class : stmt :=
  ClassDef "View"
           [Attribute (Name "base") "View"; Name "Mixin"] []
           [Sample.pass]
           [Attribute (Name "app") "route"] 2 (Some 3).

(** [if FAST: def run(): pass / else: def run(): pass], then
    [try: import json / except ImportError: import simplejson as json]. *)
Definition guarded_module : ast_module :=
  PyModule
    [If (Name "FAST")
        [FunctionDef "run" (Sample.positional []) [Sample.pass] [] None 2
                     (Some 3)]
        [FunctionDef "run" (Sample.positional []) [Sample.pass] [] None 5
                     (Some 6)];
     Try [Import [Alias "json" None] 8]
         [ExceptHandler (Some (Name "ImportError")) None
                        [Import [Alias "simplejson" (Some "json")] 10]]
         [] []].

Definition guarded_host : Interpreter :=
  Sample.host [("guarded.py", "GUARDED")] "GUARDED" guarded_module.

(** A host whose interpreter stops every traversal. *)
Definition shallow_host : Interpreter :=
  {| ast_unparse := fun _ => None;
     walk_max_lineno := fun _ => 0;
     os_path_basename := Posix.basename;
     os_path_splitext := Posix.splitext;
     read_file := fun _ => Ok "DEEP";
     ast_parse := fun _ _ => Ok Sample.calculator_py;
     exceeds_recursion_limit := fun _ => true |}.

End MoreSamples.

(** * Properties *)

(** ** Induction over the tree *)

#[universes(polymorphic)] Lemma list_all_Forall (A : Type) (P : A -> Prop) (l : list A) :
  list_all A P l -> Forall P l.
Proof.
  induction 1; constructor; assumption.
Qed.

#[universes(polymorphic)] Lemma option_all_Some (A : Type) (P : A -> Prop) (o : option A) :
  option_all A P o -> forall x, o = Some x -> P x.
Proof.
  destruct 1; intros x E; [injection E as <-; assumption | discriminate].
Qed.

#[universes(polymorphic)] Lemma list_option_all_Forall (A : Type) (P : A -> Prop) (l : list (option A)) :
  list_all (option A) (option_all A P) l ->
  Forall (fun o => forall x, o = Some x -> P x) l.
Proof.
  induction 1; constructor; [apply option_all_Some|]; assumption.
Qed.

(** ** The calculator adds up node-local increments *)

Section CalculatorFacts.

Import Calculator.

Lemma add_add (a b : Z) (self : CyclomaticComplexityCalculator) :
  add b (add a self) = add (a + b) self.
Proof.
  unfold add; simpl; f_equal; lia.
Qed.

Lemma add_0 (self : CyclomaticComplexityCalculator) : add 0 self = self.
Proof.
  destruct self; unfold add; simpl; f_equal; lia.
Qed.

Lemma Zsum_app (l1 l2 : list Z) : Zsum (l1 ++ l2) = Zsum l1 + Zsum l2.
Proof.
  unfold Zsum; induction l1 as [|x l1 IH]; simpl; [reflexivity | rewrite IH; lia].
Qed.

Lemma score_app (l1 l2 : list node_class) :
  score (l1 ++ l2) = score l1 + score l2.
Proof.
  unfold score; rewrite map_app; apply Zsum_app.
Qed.

Lemma score_cons (k : node_class) (l : list node_class) :
  score (k :: l) = increment k + score l.
Proof.
  reflexivity.
Qed.

Lemma score_nil : score [] = 0.
Proof.
  reflexivity.
Qed.

(** A visit that adds [delta x] for each [x] adds, over a list, the
    sum of the [delta]s. *)
Lemma visit_all_adds (A : Type)
      (visit : A -> CyclomaticComplexityCalculator -> CyclomaticComplexityCalculator)
      (delta : A -> Z) (l : list A) :
  Forall (fun x => forall self, visit x self = add (delta x) self) l ->
  forall self, visit_all visit l self = add (Zsum (map delta l)) self.
Proof.
  unfold visit_all.
  induction 1 as [|x l Hx _ IH]; intros self; simpl.
  - symmetry; apply add_0.
  - rewrite Hx, IH, add_add; reflexivity.
Qed.

Lemma Zsum_map_score (A : Type) (walk : A -> list node_class) (l : list A) :
  Zsum (map (fun x => score (walk x)) l) = score (flat_map walk l).
Proof.
  induction l as [|x l IH]; simpl; [reflexivity|].
  rewrite score_app, <- IH; reflexivity.
Qed.

Lemma visit_all_score (A : Type)
      (visit : A -> CyclomaticComplexityCalculator -> CyclomaticComplexityCalculator)
      (walk : A -> list node_class) (l : list A) :
  Forall (fun x => forall self, visit x self = add (score (walk x)) self) l ->
  forall self, visit_all visit l self = add (score (flat_map walk l)) self.
Proof.
  intros H self.
  rewrite (visit_all_adds A visit (fun x => score (walk x)) l H).
  rewrite Zsum_map_score; reflexivity.
Qed.

Lemma visit_opt_score (A : Type)
      (visit : A -> CyclomaticComplexityCalculator -> CyclomaticComplexityCalculator)
      (walk : A -> list node_class) (o : option A) :
  (forall x, o = Some x ->
             forall self, visit x self = add (score (walk x)) self) ->
  forall self, visit_opt visit o self = add (score (walk_opt walk o)) self.
Proof.
  intros H self; destruct o as [x|]; simpl.
  - apply H; reflexivity.
  - symmetry; apply add_0.
Qed.

Lemma count_filters_adds (generators : list comprehension)
      (self : CyclomaticComplexityCalculator) :
  count_filters generators self = add (filters_total generators) self.
Proof.
  unfold count_filters, filters_total.
  revert self; induction generators as [|g gs IH]; intros self; simpl.
  - symmetry; apply add_0.
  - rewrite IH.
    destruct (comprehension_ifs g) as [|i ifs] eqn:E.
    + unfold len; simpl. f_equal. 
    + rewrite add_add; reflexivity.
Qed.

(** The filters of the clauses and what the clauses' sub-trees add
    apart from them make up the score of the clauses. *)
Lemma filters_total_score (generators : list comprehension) :
  filters_total generators
  + Zsum (map (fun g => score (walk_comprehension g)
                        - len (comprehension_ifs g)) generators)
  = score (flat_map walk_comprehension generators).
Proof.
  unfold filters_total.
  induction generators as [|g gs IH]; simpl; [reflexivity|].
  rewrite score_app; lia.
Qed.

(** Visiting an expression adds the score of its sub-tree. *)
Lemma visit_expr_score :
  (forall e self, visit_expr e self = add (score (walk_expr e)) self)
  /\ (forall g self,
         visit_comprehension g self
         = add (score (walk_comprehension g) - len (comprehension_ifs g)) self)
  /\ (forall a self,
         visit_arguments a self = add (score (walk_arguments a)) self)
  /\ (forall a self, visit_arg a self = add (score (walk_arg a)) self).
Proof.
  apply expr_mutind; intros; simpl.
  - (* BoolOp *)
    apply list_all_Forall in H.
    rewrite (visit_all_score _ _ _ _ H).
    destruct op; rewrite add_add, score_cons; reflexivity.
  - (* Lambda *)
    rewrite H, H0, add_add, score_cons, score_app; reflexivity.
  - (* ListComp *)
    apply list_all_Forall in H0.
    rewrite (visit_all_adds _ _ _ _ H0), H, count_filters_adds, !add_add.
    rewrite score_cons, score_app, <- filters_total_score; simpl; f_equal; lia.
  - (* SetComp *)
    apply list_all_Forall in H0.
    rewrite (visit_all_adds _ _ _ _ H0), H, count_filters_adds, !add_add.
    rewrite score_cons, score_app, <- filters_total_score; simpl; f_equal; lia.
  - (* DictComp *)
    apply list_all_Forall in H1.
    rewrite (visit_all_adds _ _ _ _ H1), H0, H, count_filters_adds, !add_add.
    rewrite score_cons, !score_app, <- filters_total_score; simpl; f_equal; lia.
  - (* GeneratorExp *)
    apply list_all_Forall in H0.
    rewrite (visit_all_adds _ _ _ _ H0), H, count_filters_adds, !add_add.
    rewrite score_cons, score_app, <- filters_total_score; simpl; f_equal; lia.
  - (* Constant *)
    symmetry; apply add_0.
  - (* Attribute *)
    rewrite H, score_cons; reflexivity.
  - (* Name *)
    symmetry; apply add_0.
  - (* OtherExpr *)
    apply list_all_Forall in H.
    rewrite (visit_all_score _ _ _ _ H), score_cons; reflexivity.
  - (* comprehension *)
    apply list_all_Forall in H1.
    rewrite (visit_all_score _ _ _ _ H1), H0, H, !add_add.
    rewrite score_cons, !score_app; unfold len; simpl; f_equal; lia.
  - (* arguments *)
    apply list_all_Forall in H, H0, H2, H5.
    apply list_option_all_Forall in H3.
    rewrite (visit_all_score _ _ _ _ H5).
    rewrite (visit_opt_score _ _ _ _ (option_all_Some _ _ _ H4)).
    rewrite (visit_all_score _ (visit_opt visit_expr) (walk_opt walk_expr)).
    2:{ eapply Forall_impl; [|exact H3].
        intros o Ho; apply visit_opt_score; exact Ho. }
    rewrite (visit_all_score _ _ _ _ H2).
    rewrite (visit_opt_score _ _ _ _ (option_all_Some _ _ _ H1)).
    rewrite (visit_all_score _ _ _ _ H0).
    rewrite (visit_all_score _ _ _ _ H).
    rewrite !add_add, score_cons, !score_app; simpl; f_equal; lia.
  - (* arg *)
    rewrite (visit_opt_score _ _ _ _ (option_all_Some _ _ _ H)), score_cons.
    reflexivity.
Qed.

Lemma visit_exprs_score (l : list expr) (self : CyclomaticComplexityCalculator) :
  visit_all visit_expr l self = add (score (flat_map walk_expr l)) self.
Proof.
  apply visit_all_score, Forall_forall; intros e _.
  apply visit_expr_score.
Qed.

Lemma visit_opt_expr_score (o : option expr)
      (self : CyclomaticComplexityCalculator) :
  visit_opt visit_expr o self = add (score (walk_opt walk_expr o)) self.
Proof.
  apply visit_opt_score; intros e _; apply visit_expr_score.
Qed.

Lemma visit_withitems_score (l : list withitem)
      (self : CyclomaticComplexityCalculator) :
  visit_all visit_withitem l self
  = add (score (flat_map walk_withitem l)) self.
Proof.
  apply visit_all_score, Forall_forall; intros w _ s.
  unfold visit_withitem, walk_withitem.
  rewrite visit_opt_expr_score.
  rewrite (proj1 visit_expr_score), add_add, score_cons, score_app.
  reflexivity.
Qed.

(** Visiting a statement adds the score of its sub-tree. *)
Lemma visit_stmt_score :
  (forall s self, visit_stmt s self = add (score (walk_stmt s)) self)
  /\ (forall h self,
         visit_excepthandler h self
         = add (score (walk_excepthandler h)) self)
  /\ (forall c self,
         visit_match_case c self = add (score (walk_match_case c)) self).
Proof.
  pose proof (proj1 visit_expr_score) as He.
  pose proof (proj1 (proj2 (proj2 visit_expr_score))) as Ha.
  apply stmt_mutind; intros; simpl;
    repeat match goal with
           | H : list_all _ _ _ |- _ => apply list_all_Forall in H
           end;
    repeat match goal with
           | H : Forall _ ?l |- context [visit_all _ ?l _] =>
               rewrite (visit_all_score _ _ _ _ H)
           end;
    rewrite ?visit_opt_expr_score, ?visit_exprs_score,
      ?visit_withitems_score, ?He, ?Ha, ?add_add,
      ?score_cons, ?score_app;
    simpl; try (f_equal; lia).
  all: try (symmetry; apply add_0).
Qed.

End CalculatorFacts.

(** ** The score in the specification's words *)

Lemma count_cons (p : node_class -> bool) (k : node_class) (l : list node_class) :
  count p (k :: l) = (if p k then 1 else 0) + count p l.
Proof.
  unfold count, len; cbn [filter]; destruct (p k); [|lia].
  cbn [List.length]; rewrite Nat2Z.inj_succ; lia.
Qed.

Lemma score_spec (l : list node_class) : score l = spec_score l.
Proof.
  unfold spec_score.
  induction l as [|k l IH]; [reflexivity|].
  rewrite score_cons, IH, !count_cons.
  change (boolop_extra (k :: l))
    with (match k with
          | K_BoolOp operands => Z.of_nat operands - 1
          | _ => 0
          end + boolop_extra l).
  change (filter_conditions (k :: l))
    with (match k with
          | K_comprehension filters => Z.of_nat filters
          | _ => 0
          end + filter_conditions l).
  destruct k; cbn [increment is_conditional is_loop is_handler is_with]; lia.
Qed.

Lemma complexity_score (node : stmt) :
  cyclomatic_complexity_of node = 1 + score (walk_stmt node).
Proof.
  unfold cyclomatic_complexity_of.
  rewrite (proj1 visit_stmt_score); reflexivity.
Qed.

Lemma score_nonneg (l : list node_class) : well_formed l -> 0 <= score l.
Proof.
  induction 1 as [|k l Hk _ IH]; [reflexivity|].
  rewrite score_cons.
  assert (0 <= increment k); [|lia].
  destruct k; cbn [increment well_formed_class] in *; try lia.
  apply Nat.leb_le in Hk; lia.
Qed.

Lemma score_no_branching (l : list node_class) :
  Forall (fun k => branching k = false) l -> score l = 0.
Proof.
  induction 1 as [|k l Hk _ IH]; [reflexivity|].
  rewrite score_cons, IH.
  destruct k; cbn [increment branching] in *;
    try discriminate; try reflexivity.
  apply negb_false_iff, Nat.eqb_eq in Hk; subst; reflexivity.
Qed.

(** ** C6: the increments *)

(** C6, as amended.  The score of a callable is 1 plus the sum, over
    every node of its declaration (parameters, body, decorators and
    return annotation, nested callables included), of: 1 for a
    conditional, 1 for a loop (for, while, async for), 1 for an
    exception handler, 1 for a with-block (with, async with), the
    operands less one for a boolean combination, and the number of
    filter conditions for a comprehension clause; every other node
    adds nothing.  The method [multiply] of [testdata/calculator.py],
    one loop holding one conditional, scores 3. *)
Theorem complexity_is_one_plus_increments :
  (forall node : stmt,
      cyclomatic_complexity_of node
      = 1 + (count is_conditional (walk_stmt node)
             + count is_loop (walk_stmt node)
             + count is_handler (walk_stmt node)
             + count is_with (walk_stmt node)
             + boolop_extra (walk_stmt node)
             + filter_conditions (walk_stmt node)))
  /\ cyclomatic_complexity_of Sample.calc_multiply = 3.
Proof.
  split.
  - intros node.
    rewrite complexity_score, score_spec; reflexivity.
  - reflexivity.
Qed.

(** C6 as it is written fails: the sum is not over the body alone.
    [def f(x=a or b): pass] has no counted construct in its body and
    scores 2. *)
Lemma complexity_counts_outside_body :
  ~ (forall node : stmt,
        is_callable node = true ->
        cyclomatic_complexity_of node
        = 1 + spec_score (flat_map walk_stmt (child_stmts node))).
Proof.
  intros claim.
  specialize (claim Sample.default_def eq_refl).
  vm_compute in claim; discriminate.
Qed.

(** ** The walk of the extractor

    The visitor runs the handlers on the statements [reached] lists, in
    that order, and leaves the register as it found it. *)

Section ExtractorFacts.

Context {interpreter : Interpreter}.

Lemma emit_nil (self : PythonASTExtractor) : emit [] self = self.
Proof.
  destruct self; unfold emit; simpl; rewrite !app_nil_r; reflexivity.
Qed.

Lemma emit_app (l1 l2 : list (option string * stmt)) (self : PythonASTExtractor) :
  emit (l1 ++ l2) self = emit l2 (emit l1 self).
Proof.
  unfold emit; simpl; rewrite !flat_map_app, !app_assoc; reflexivity.
Qed.

Lemma emit_current_class (l : list (option string * stmt))
      (self : PythonASTExtractor) :
  current_class (emit l self) = current_class self.
Proof.
  reflexivity.
Qed.

Lemma visit_all_emit (A : Type)
      (visit_one : A -> PythonASTExtractor -> PythonASTExtractor)
      (reach : option string -> A -> list (option string * stmt))
      (l : list A) :
  Forall (fun x => forall self,
              visit_one x self = emit (reach (current_class self) x) self) l ->
  forall self,
    visit_all visit_one l self
    = emit (flat_map (reach (current_class self)) l) self.
Proof.
  unfold visit_all.
  induction 1 as [|x l Hx _ IH]; intros self; simpl.
  - symmetry; apply emit_nil.
  - rewrite Hx, IH, emit_app, emit_current_class; reflexivity.
Qed.

Lemma fold_imports_append (f : alias -> ImportInfo.t) (names : list alias)
      (self : PythonASTExtractor) :
  fold_left (fun self a => imports_append (f a) self) names self
  = {| source_code := source_code self;
       file_path := file_path self;
       nodes := nodes self;
       imports := imports self ++ map f names;
       relationships := relationships self;
       current_class := current_class self |}.
Proof.
  revert self; induction names as [|a names IH]; intros self; simpl.
  - destruct self; simpl; rewrite app_nil_r; reflexivity.
  - rewrite IH; unfold imports_append; simpl.
    rewrite <- app_assoc; reflexivity.
Qed.

Lemma visit_FunctionDef_emit (node : stmt) (self : PythonASTExtractor) :
  is_callable node = true ->
  visit_FunctionDef node self = emit [(current_class self, node)] self.
Proof.
  destruct node; try discriminate; intros _;
    unfold emit, visit_FunctionDef, declare, nodes_append; simpl;
    destruct (truthy (current_class self));
    destruct returns; simpl; rewrite ?app_nil_r; reflexivity.
Qed.

Lemma emit_cons_silent (c : option string) (s : stmt)
      (l : list (option string * stmt)) (self : PythonASTExtractor) :
  declare c s = [] -> import_records s = [] ->
  emit ((c, s) :: l) self = emit l self.
Proof.
  intros Hd Hi; unfold emit; simpl; rewrite Hd, Hi; reflexivity.
Qed.

Lemma visit_Import_emit (names : list alias) (lineno : Z)
      (self : PythonASTExtractor) :
  visit_Import (Import names lineno) self
  = emit [(current_class self, Import names lineno)] self.
Proof.
  unfold emit; cbn [flat_map fst snd declare import_records visit_Import].
  rewrite (fold_imports_append _ _ self).
  rewrite (fold_imports_append _ _ (new_extractor "" "")).
  simpl; rewrite ?app_nil_r; reflexivity.
Qed.

Lemma visit_ImportFrom_emit (module : option string) (names : list alias)
      (level lineno : Z) (self : PythonASTExtractor) :
  visit_ImportFrom (ImportFrom module names level lineno) self
  = emit [(current_class self, ImportFrom module names level lineno)] self.
Proof.
  unfold emit; cbn [flat_map fst snd declare import_records visit_ImportFrom].
  rewrite (fold_imports_append _ _ self).
  rewrite (fold_imports_append _ _ (new_extractor "" "")).
  simpl; rewrite ?app_nil_r; reflexivity.
Qed.

Lemma visit_emit :
  (forall s self, visit s self = emit (reached (current_class self) s) self)
  /\ (forall h self,
         visit_excepthandler h self
         = emit (reached_handler (current_class self) h) self)
  /\ (forall m self,
         visit_match_case m self
         = emit (reached_case (current_class self) m) self).
Proof.
  apply stmt_mutind; intros;
    repeat match goal with
           | H : list_all _ _ _ |- _ => apply list_all_Forall in H
           end;
    cbn [visit visit_excepthandler visit_match_case
         reached reached_handler reached_case];
    try (rewrite emit_cons_silent by reflexivity);
    repeat match goal with
           | H : Forall _ ?l |- context [visit_all _ ?l _] =>
               first [ rewrite (visit_all_emit _ _ reached _ H)
                     | rewrite (visit_all_emit _ _ reached_handler _ H)
                     | rewrite (visit_all_emit _ _ reached_case _ H) ];
               rewrite ?emit_current_class
           end;
    rewrite ?emit_app; try reflexivity.
  - apply (visit_FunctionDef_emit (FunctionDef _ _ _ _ _ _ _)); reflexivity.
  - apply (visit_FunctionDef_emit (AsyncFunctionDef _ _ _ _ _ _ _)); reflexivity.
  - (* ClassDef *)
    cbn [visit_ClassDef].
    rewrite (visit_all_emit _ _ reached _ H).
    unfold emit, set_current_class, nodes_append; simpl.
    rewrite <- app_assoc; reflexivity.
  - apply visit_Import_emit.
  - apply visit_ImportFrom_emit.
  - symmetry; apply emit_nil.
Qed.

(** [self.visit(tree)] on a fresh extractor. *)
Lemma visit_Module_emit (tree : ast_module) (self : PythonASTExtractor) :
  visit_Module tree self
  = emit (flat_map (reached (current_class self)) (module_body tree)) self.
Proof.
  destruct tree as [body]; simpl.
  apply visit_all_emit, Forall_forall; intros s _; apply visit_emit.
Qed.

(** ** The statements the walk reaches and the statements it does not *)

Lemma in_reached_encloses :
  (forall s c c' d, In (c', d) (reached c s) -> Encloses c s c' d)
  /\ (forall h c c' d,
         In (c', d) (reached_handler c h) ->
         exists child, In child (handler_body h) /\ Encloses c child c' d)
  /\ (forall m c c' d,
         In (c', d) (reached_case c m) ->
         exists child, In child (case_body m) /\ Encloses c child c' d).
Proof.
  assert (lift : forall (l : list stmt),
             Forall (fun s => forall c c' d,
                         In (c', d) (reached c s) -> Encloses c s c' d) l ->
             forall c c' d,
               In (c', d) (flat_map (reached c) l) ->
               exists child, In child l /\ Encloses c child c' d).
  { intros l H c c' d Hin.
    apply in_flat_map in Hin as (child & Hchild & Hin).
    exists child; split; [assumption|].
    rewrite Forall_forall in H; apply H; assumption. }
  apply stmt_mutind; intros;
    repeat match goal with
           | H : list_all _ _ _ |- _ => apply list_all_Forall in H
           end;
    cbn [reached reached_handler reached_case handler_body case_body] in *;
    try (match goal with
         | H : In _ (_ :: _) |- _ =>
             destruct H as [H|H];
             [injection H as <- <-; apply encloses_here|]
         end);
    repeat match goal with
           | H : In _ (_ ++ _) |- _ => apply in_app_or in H as [H|H]
           | H : In _ [] |- _ => destruct H
           end;
    try (match goal with
         | F : Forall _ ?l, H : In _ (flat_map (reached _) ?l) |- _ =>
             apply (lift _ F) in H as (child & Hchild & Henc)
         end;
         first [ exists child; split; assumption
               | eapply encloses_below;
                 [reflexivity
                 |cbn [child_stmts]; rewrite ?in_app_iff; eauto 6
                 |exact Henc] ]).
  - (* Match *)
    apply in_flat_map in H0 as (m & Hm & Hin).
    rewrite Forall_forall in H.
    destruct (H m Hm _ _ _ Hin) as (child & Hchild & Henc).
    eapply encloses_below; [reflexivity| |exact Henc].
    cbn [child_stmts]; apply in_flat_map; eauto.
  - (* Try *)
    apply in_flat_map in H3 as (h & Hh & Hin).
    rewrite Forall_forall in H0.
    destruct (H0 h Hh _ _ _ Hin) as (child & Hchild & Henc).
    eapply encloses_below; [reflexivity| |exact Henc].
    cbn [child_stmts]; rewrite !in_app_iff, in_flat_map; eauto 6.
  - (* TryStar *)
    apply in_flat_map in H3 as (h & Hh & Hin).
    rewrite Forall_forall in H0.
    destruct (H0 h Hh _ _ _ Hin) as (child & Hchild & Henc).
    eapply encloses_below; [reflexivity| |exact Henc].
    cbn [child_stmts]; rewrite !in_app_iff, in_flat_map; eauto 6.
Qed.

Lemma reached_child (c : option string) (s child : stmt) :
  is_callable s = false ->
  In child (child_stmts s) ->
  incl (reached (class_within c s) child) (reached c s).
Proof.
  intros Hs Hchild p Hp.
  destruct s; try discriminate;
    cbn [reached child_stmts class_within] in *; right;
    rewrite ?in_app_iff in *; rewrite ?in_flat_map in *.
  - eauto.
  - destruct Hchild; eauto.
  - destruct Hchild; eauto.
  - destruct Hchild; eauto.
  - destruct Hchild; eauto.
  - eauto.
  - eauto.
  - destruct Hchild as (m & Hm & Hchild).
    exists m; split; [assumption|].
    destruct m; cbn [reached_case case_body] in *.
    apply in_flat_map; eauto.
  - destruct Hchild as [H|[(h & Hh & H)|[H|H]]]; eauto 6.
    right; left. exists h; split; [assumption|].
    destruct h; cbn [reached_handler handler_body] in *.
    apply in_flat_map; eauto.
  - destruct Hchild as [H|[(h & Hh & H)|[H|H]]]; eauto 6.
    right; left. exists h; split; [assumption|].
    destruct h; cbn [reached_handler handler_body] in *.
    apply in_flat_map; eauto.
  - destruct Hchild.
  - destruct Hchild.
  - destruct Hchild.
Qed.

Lemma reached_head (c : option string) (s : stmt) : In (c, s) (reached c s).
Proof.
  destruct s; left; reflexivity.
Qed.

Lemma encloses_in_reached (c : option string) (s : stmt) (c' : option string)
      (d : stmt) :
  Encloses c s c' d -> In (c', d) (reached c s).
Proof.
  induction 1 as [c s|c s child c' d Hs Hchild _ IH].
  - apply reached_head.
  - apply (reached_child c s child Hs Hchild); exact IH.
Qed.

(** The walk reaches exactly the statements outside callable bodies,
    each under its innermost class. *)
Lemma reached_iff_encloses (c : option string) (s : stmt) (c' : option string)
      (d : stmt) :
  In (c', d) (reached c s) <-> Encloses c s c' d.
Proof.
  split; [apply in_reached_encloses | apply encloses_in_reached].
Qed.

(** A statement below a statement of a sub-tree is in the sub-tree. *)
Lemma substmts_trans :
  (forall y x, In x (substmts y) -> incl (substmts x) (substmts y))
  /\ (forall h x, In x (substmts_handler h) ->
                  incl (substmts x) (substmts_handler h))
  /\ (forall m x, In x (substmts_case m) ->
                  incl (substmts x) (substmts_case m)).
Proof.
  assert (lift : forall (A : Type) (f : A -> list stmt) (l : list A),
             Forall (fun y => forall x, In x (f y) -> incl (substmts x) (f y)) l ->
             forall x, In x (flat_map f l) ->
                       incl (substmts x) (flat_map f l)).
  { intros A f l H x Hin z Hz.
    apply in_flat_map in Hin as (y & Hy & Hin).
    rewrite Forall_forall in H.
    apply in_flat_map; exists y; split; [assumption|].
    apply (H y Hy x Hin); assumption. }
  apply stmt_mutind; intros;
    repeat match goal with
           | H : list_all _ _ _ |- _ => apply list_all_Forall in H
           end;
    cbn [substmts substmts_handler substmts_case] in *;
    try (match goal with
         | H : In _ (_ :: _) |- _ =>
             destruct H as [<-|H]; [apply incl_refl|apply incl_tl]
         end);
    repeat match goal with
           | H : In _ (_ ++ _) |- _ => apply in_app_or in H as [H|H]
           | H : In _ [] |- _ => destruct H
           end;
    match goal with
    | F : Forall _ ?l, H : In ?x (flat_map _ ?l) |- _ =>
        let z := fresh "z" in
        let Hz := fresh "Hz" in
        intros z Hz; apply (lift _ _ _ F x H) in Hz;
        rewrite ?in_app_iff; tauto
    end.
Qed.

Lemma substmts_flat_trans (l : list stmt) (x : stmt) :
  In x (flat_map substmts l) -> incl (substmts x) (flat_map substmts l).
Proof.
  intros Hin z Hz.
  apply in_flat_map in Hin as (y & Hy & Hin).
  apply in_flat_map; exists y; split; [assumption|].
  apply (proj1 substmts_trans y x Hin); assumption.
Qed.

Lemma with_hidden_app (l1 l2 : list (option string * stmt)) :
  Permutation (with_hidden (l1 ++ l2)) (with_hidden l1 ++ with_hidden l2).
Proof.
  unfold with_hidden.
  rewrite !map_app, flat_map_app, <- !app_assoc.
  apply Permutation_app_head.
  rewrite !app_assoc.
  apply Permutation_app_tail, Permutation_app_comm.
Qed.

Lemma with_hidden_cons (c : option string) (s : stmt)
      (l : list (option string * stmt)) :
  Permutation (with_hidden ((c, s) :: l)) (s :: hidden s ++ with_hidden l).
Proof.
  change ((c, s) :: l) with ([(c, s)] ++ l).
  rewrite with_hidden_app; unfold with_hidden at 1; simpl.
  rewrite app_nil_r; reflexivity.
Qed.

Lemma with_hidden_flat_map (A : Type) (sub : A -> list stmt)
      (reach : A -> list (option string * stmt)) (l : list A) :
  Forall (fun x => Permutation (sub x) (with_hidden (reach x))) l ->
  Permutation (flat_map sub l) (with_hidden (flat_map reach l)).
Proof.
  induction 1 as [|x l Hx _ IH]; simpl; [reflexivity|].
  rewrite with_hidden_app; apply Permutation_app; assumption.
Qed.

(** Every statement of a sub-tree is reached by the walk or hidden in
    the body of a callable the walk reaches, and not both. *)
Lemma substmts_reached_or_hidden :
  (forall s c, Permutation (substmts s) (with_hidden (reached c s)))
  /\ (forall h c,
         Permutation (substmts_handler h) (with_hidden (reached_handler c h)))
  /\ (forall m c,
         Permutation (substmts_case m) (with_hidden (reached_case c m))).
Proof.
  apply stmt_mutind; intros;
    repeat match goal with
           | H : list_all _ _ _ |- _ => apply list_all_Forall in H
           end;
    cbn [substmts substmts_handler substmts_case
         reached reached_handler reached_case];
    rewrite ?with_hidden_cons; cbn [hidden is_callable child_stmts app];
    rewrite ?with_hidden_app;
    try apply perm_skip;
    repeat apply Permutation_app;
    try (apply with_hidden_flat_map;
         eapply Forall_impl; [|eassumption]; intros ? Hp; apply Hp).
  all: try (unfold with_hidden; simpl; rewrite ?app_nil_r; reflexivity).
Qed.

(** A statement of a sub-tree has its nodes among the sub-tree's. *)
Lemma substmts_walk :
  (forall y x, In x (substmts y) -> incl (walk_stmt x) (walk_stmt y))
  /\ (forall h x, In x (substmts_handler h) ->
                  incl (walk_stmt x) (walk_excepthandler h))
  /\ (forall m x, In x (substmts_case m) ->
                  incl (walk_stmt x) (walk_match_case m)).
Proof.
  assert (lift : forall (A : Type) (f : A -> list stmt)
                        (w : A -> list node_class) (l : list A),
             Forall (fun y => forall x, In x (f y) -> incl (walk_stmt x) (w y)) l ->
             forall x, In x (flat_map f l) ->
                       incl (walk_stmt x) (flat_map w l)).
  { intros A f w l H x Hin z Hz.
    apply in_flat_map in Hin as (y & Hy & Hin).
    rewrite Forall_forall in H.
    apply in_flat_map; exists y; split; [assumption|].
    apply (H y Hy x Hin); assumption. }
  apply stmt_mutind; intros;
    repeat match goal with
           | H : list_all _ _ _ |- _ => apply list_all_Forall in H
           end;
    cbn [substmts substmts_handler substmts_case] in *;
    try (match goal with
         | H : In _ (_ :: _) |- _ =>
             destruct H as [<-|H]; [apply incl_refl|]
         end);
    repeat match goal with
           | H : In _ (_ ++ _) |- _ => apply in_app_or in H as [H|H]
           | H : In _ [] |- _ => destruct H
           end;
    match goal with
    | F : Forall _ ?l, H : In ?x (flat_map _ ?l) |- _ =>
        let z := fresh "z" in
        let Hz := fresh "Hz" in
        intros z Hz; apply (lift _ _ _ _ F x H) in Hz;
        cbn [walk_stmt walk_excepthandler walk_match_case];
        rewrite ?in_app_iff; simpl; rewrite ?in_app_iff; tauto
    end.
Qed.

Lemma reached_substmts (c : option string) (s : stmt) (c' : option string)
      (d : stmt) :
  In (c', d) (reached c s) -> In d (substmts s).
Proof.
  intros Hin.
  apply (Permutation_in _ (Permutation_sym (proj1 substmts_reached_or_hidden s c))).
  unfold with_hidden; apply in_or_app; left.
  apply in_map_iff; exists (c', d); split; [reflexivity|assumption].
Qed.

(** ** What a handler emits *)

Lemma declare_callable (c : option string) (d : stmt) (r : PythonASTNode) :
  is_callable d = true ->
  In r (declare c d) ->
  declare c d = [r]
  /\ definition_key d = [record_key r]
  /\ Node.cyclomatic_complexity r = cyclomatic_complexity_of d
  /\ Node.base_classes r = []
  /\ ((truthy c = true /\ Node.type r = "method" /\ c = Some (Node.parent r)
       /\ Node.parent r <> "")
      \/ (truthy c = false /\ Node.type r = "function" /\ Node.parent r = "")).
Proof.
  destruct d; try discriminate; intros _;
    unfold declare, visit_FunctionDef, nodes_append; cbn [set_current_class current_class nodes new_extractor app];
    (destruct c as [[|a n]|]; cbn [truthy or_else]);
    destruct returns; cbn [nodes app];
    (intros [<-|[]]; cbn; repeat split;
     first [ left; repeat split; congruence
           | right; repeat split ]).
Qed.

Lemma declare_class (c : option string) (d : stmt) (r : PythonASTNode) :
  is_definition d = true ->
  is_callable d = false ->
  In r (declare c d) ->
  declare c d = [r]
  /\ definition_key d = [record_key r]
  /\ Node.type r = "class"
  /\ Node.parent r = ""
  /\ Node.parameters r = []
  /\ Node.return_values r = []
  /\ Node.parameter_count r = 0
  /\ Node.return_count r = 0
  /\ Node.cyclomatic_complexity r = 1.
Proof.
  destruct d; try discriminate; intros _ _.
  unfold declare, visit_ClassDef, nodes_append; cbn.
  intros [<-|[]]; cbn; repeat split.
Qed.

Lemma declare_other (c : option string) (d : stmt) :
  is_definition d = false -> declare c d = [].
Proof.
  destruct d; try discriminate; reflexivity.
Qed.

Lemma declare_nonempty (c : option string) (d : stmt) :
  is_definition d = true -> exists r, declare c d = [r].
Proof.
  destruct d; try discriminate; intros _;
    unfold declare, visit_FunctionDef, visit_ClassDef, nodes_append; cbn;
    try (destruct (truthy c); destruct returns); cbn; eauto.
Qed.

Lemma declare_keys (l : list (option string * stmt)) :
  map record_key (flat_map (fun p => declare (fst p) (snd p)) l)
  = flat_map definition_key (map snd l).
Proof.
  induction l as [|[c d] l IH]; [reflexivity|].
  cbn [flat_map map fst snd]; rewrite map_app, IH; f_equal.
  destruct (is_definition d) eqn:Hd.
  - destruct (declare_nonempty c d Hd) as (r & Hr).
    assert (Hin : In r (declare c d)) by (rewrite Hr; left; reflexivity).
    rewrite Hr; cbn [map].
    destruct (is_callable d) eqn:Hc.
    + destruct (declare_callable c d r Hc Hin) as (_ & -> & _); reflexivity.
    + destruct (declare_class c d r Hd Hc Hin) as (_ & -> & _); reflexivity.
  - rewrite declare_other by assumption.
    destruct d; try discriminate; reflexivity.
Qed.

(** ** What [extract] returns *)

Lemma extract_result (source path : string) (result : Result.t) :
  extract (new_extractor source path) = Ok result ->
  (ast_parse source path = Raise SyntaxError
   /\ result = Result.empty (fst (os_path_splitext (os_path_basename path))))
  \/ (exists tree,
         ast_parse source path = Ok tree
         /\ exceeds_recursion_limit tree = false
         /\ Result.module result
            = fst (os_path_splitext (os_path_basename path))
         /\ Result.nodes result
            = flat_map (fun p => declare (fst p) (snd p))
                       (flat_map (reached None) (module_body tree))
         /\ Result.imports result
            = flat_map (fun p => import_records (snd p))
                       (flat_map (reached None) (module_body tree))
         /\ Result.relationships result = []).
Proof.
  unfold extract; cbn [source_code file_path new_extractor].
  destruct (ast_parse source path) as [tree|e] eqn:Hparse; cbn [bind].
  - destruct (exceeds_recursion_limit tree) eqn:Hlimit;
      cbn [bind except_SyntaxError]; [discriminate|].
    intros H; injection H as <-.
    right; exists tree.
    rewrite visit_Module_emit; cbn; auto 10.
  - destruct e; cbn [except_SyntaxError]; try discriminate.
    intros H; injection H as <-; left; split; reflexivity.
Qed.

Lemma encloses_step (c : option string) (s : stmt) (c' : option string)
      (d child : stmt) :
  Encloses c s c' d ->
  is_callable d = false ->
  In child (child_stmts d) ->
  Encloses c s (class_within c' d) child.
Proof.
  induction 1 as [c s|c s mid c' d Hs Hmid _ IH]; intros Hd Hchild.
  - eapply encloses_below; [assumption|exact Hchild|apply encloses_here].
  - eapply encloses_below; [assumption|exact Hmid|apply IH; assumption].
Qed.

(** Every record of a result is the record of a declaration that lies
    outside every callable body, made under its innermost class. *)
Lemma result_node_origin (source path : string) (result : Result.t)
      (r : PythonASTNode) :
  extract (new_extractor source path) = Ok result ->
  In r (Result.nodes result) ->
  exists tree s c' d,
    ast_parse source path = Ok tree
    /\ In s (module_body tree)
    /\ Encloses None s c' d
    /\ is_definition d = true
    /\ In r (declare c' d).
Proof.
  intros Hextract Hin.
  apply extract_result in Hextract
      as [(_ & ->)|(tree & Hparse & _ & _ & Hnodes & _)]; [destruct Hin|].
  rewrite Hnodes in Hin.
  apply in_flat_map in Hin as ([c' d] & Hreach & Hin); cbn [fst snd] in Hin.
  apply in_flat_map in Hreach as (s & Hs & Hreach).
  exists tree, s, c', d; repeat split; try assumption.
  - apply reached_iff_encloses; assumption.
  - destruct (is_definition d) eqn:Hd; [reflexivity|].
    rewrite declare_other in Hin by assumption; destruct Hin.
Qed.

(** And every such declaration has its record in the result. *)
Lemma origin_result_node (source path : string) (result : Result.t)
      (tree : ast_module) (s : stmt) (c' : option string) (d : stmt)
      (r : PythonASTNode) :
  extract (new_extractor source path) = Ok result ->
  ast_parse source path = Ok tree ->
  In s (module_body tree) ->
  Encloses None s c' d ->
  In r (declare c' d) ->
  In r (Result.nodes result).
Proof.
  intros Hextract Hparse Hs Henc Hin.
  apply extract_result in Hextract
      as [(Hfail & _)|(tree' & Hparse' & _ & _ & -> & _)]; [congruence|].
  assert (tree' = tree) as -> by congruence.
  apply in_flat_map; exists (c', d); split; [|exact Hin].
  apply in_flat_map; exists s; split; [assumption|].
  apply reached_iff_encloses; assumption.
Qed.

(** The visit of a callable appends the record of the callable and
    nothing else, whatever its body holds. *)
Lemma visit_callable (node : stmt) (self : PythonASTExtractor) :
  is_callable node = true ->
  nodes (visit node self) = nodes self ++ declare (current_class self) node
  /\ imports (visit node self) = imports self
  /\ current_class (visit node self) = current_class self.
Proof.
  intros Hnode; rewrite (proj1 visit_emit).
  destruct node; try discriminate;
    cbn [emit nodes imports current_class reached flat_map fst snd
         import_records];
    rewrite !app_nil_r; repeat split.
Qed.

Lemma visit_callable_kind (node : stmt) (self : PythonASTExtractor) :
  is_callable node = true ->
  exists r,
    nodes (visit node self) = nodes self ++ [r]
    /\ (Node.type r = "method" <-> truthy (current_class self) = true)
    /\ (Node.type r = "function" <-> truthy (current_class self) = false).
Proof.
  intros Hnode.
  destruct (declare_nonempty (current_class self) node) as (r & Hr).
  { destruct node; try discriminate; reflexivity. }
  exists r.
  rewrite (proj1 (visit_callable node self Hnode)), Hr.
  split; [reflexivity|].
  destruct (declare_callable (current_class self) node r Hnode)
    as (_ & _ & _ & _ & [(Ht & Hty & _)|(Ht & Hty & _)]);
    [rewrite Hr; left; reflexivity| |];
    rewrite Hty, Ht; split; split; intros; congruence.
Qed.

(** ** C4: methods and functions *)

(** C4.  In every result, a record of kind method has a non-empty
    parent, the name of the innermost class whose body holds the
    callable (outside every callable body), and a record of kind
    function has an empty parent; and the handler of a callable emits
    one record, of kind method exactly when the current-class register
    is set (holds a name, which is never empty), of kind function
    otherwise. *)
Theorem methods_have_parents_functions_have_none
        (source path : string) (result : Result.t) (r : PythonASTNode) :
  extract (new_extractor source path) = Ok result ->
  In r (Result.nodes result) ->
  (Node.type r = "method" ->
   Node.parent r <> ""
   /\ exists tree s d,
       ast_parse source path = Ok tree
       /\ In s (module_body tree)
       /\ is_callable d = true
       /\ definition_key d = [record_key r]
       /\ Encloses None s (Some (Node.parent r)) d)
  /\ (Node.type r = "function" -> Node.parent r = "")
  /\ (forall (node : stmt) (self : PythonASTExtractor),
         is_callable node = true ->
         exists r',
           nodes (visit node self) = nodes self ++ [r']
           /\ (Node.type r' = "method" <-> truthy (current_class self) = true)
           /\ (Node.type r' = "function"
               <-> truthy (current_class self) = false)).
Proof.
  intros Hextract Hin.
  split; [|split; [|apply visit_callable_kind]].
  - intros Hmethod.
    destruct (result_node_origin _ _ _ _ Hextract Hin)
      as (tree & s & c' & d & Hparse & Hs & Henc & Hd & Hr).
    destruct (is_callable d) eqn:Hc.
    + destruct (declare_callable c' d r Hc Hr)
        as (_ & Hkey & _ & _ & [(Ht & Hty & Hc' & Hp)|(Ht & Hty & Hp)]);
        [|rewrite Hty in Hmethod; discriminate].
      split; [assumption|].
      exists tree, s, d; subst c'; auto 10.
    + destruct (declare_class c' d r Hd Hc Hr) as (_ & _ & Hty & _).
      rewrite Hty in Hmethod; discriminate.
  - intros Hfunction.
    destruct (result_node_origin _ _ _ _ Hextract Hin)
      as (tree & s & c' & d & Hparse & Hs & Henc & Hd & Hr).
    destruct (is_callable d) eqn:Hc.
    + destruct (declare_callable c' d r Hc Hr)
        as (_ & Hkey & _ & _ & [(Ht & Hty & Hc' & Hp)|(Ht & Hty & Hp)]);
        [rewrite Hty in Hfunction; discriminate|assumption].
    + destruct (declare_class c' d r Hd Hc Hr) as (_ & _ & _ & Hp & _).
      assumption.
Qed.

(** ** C10: class records *)

(** C10.  In every result a record of kind class has an empty parent,
    no parameters, no return values and both counts 0.  A class reached
    by the walk under any register, so also one declared directly in
    the body of another class, has such a record, and each callable
    directly in its body has a record of kind method whose parent is
    the name of that class. *)
Theorem class_records_have_no_parent
        (source path : string) (result : Result.t) :
  extract (new_extractor source path) = Ok result ->
  (forall r,
      In r (Result.nodes result) ->
      Node.type r = "class" ->
      Node.parent r = ""
      /\ Node.parameters r = []
      /\ Node.return_values r = []
      /\ Node.parameter_count r = 0
      /\ Node.return_count r = 0)
  /\ (forall tree s c' name bases keywords body decorator_list lineno
             end_lineno,
         ast_parse source path = Ok tree ->
         In s (module_body tree) ->
         Encloses None s c'
                  (ClassDef name bases keywords body decorator_list lineno
                            end_lineno) ->
         (exists r,
             In r (Result.nodes result)
             /\ record_key r = (name, lineno)
             /\ Node.type r = "class"
             /\ Node.parent r = "")
         /\ (name <> "" ->
             forall m,
               In m body ->
               is_callable m = true ->
               exists r,
                 In r (Result.nodes result)
                 /\ definition_key m = [record_key r]
                 /\ Node.type r = "method"
                 /\ Node.parent r = name)).
Proof.
  intros Hextract; split.
  - intros r Hin Hclass.
    destruct (result_node_origin _ _ _ _ Hextract Hin)
      as (tree & s & c' & d & Hparse & Hs & Henc & Hd & Hr).
    destruct (is_callable d) eqn:Hc.
    + destruct (declare_callable c' d r Hc Hr)
        as (_ & _ & _ & _ & [(_ & Hty & _)|(_ & Hty & _)]);
        rewrite Hty in Hclass; discriminate.
    + destruct (declare_class c' d r Hd Hc Hr)
        as (_ & _ & _ & Hp & Hps & Hrs & Hpc & Hrc & _).
      auto.
  - intros tree s c' name bases keywords body decorator_list lineno end_lineno
           Hparse Hs Henc.
    split.
    + destruct (declare_nonempty
                  c' (ClassDef name bases keywords body decorator_list lineno
                               end_lineno) eq_refl) as (r & Hr).
      assert (Hin : In r (declare c' (ClassDef name bases keywords body
                                               decorator_list lineno
                                               end_lineno)))
        by (rewrite Hr; left; reflexivity).
      exists r; split.
      * eapply origin_result_node; eassumption.
      * destruct (declare_class
                    c' (ClassDef name bases keywords body decorator_list
                                 lineno end_lineno) r eq_refl eq_refl Hin)
          as (_ & Hkey & Hty & Hp & _).
        injection Hkey as Hn Hl.
        unfold record_key; rewrite <- Hn, <- Hl; auto.
    + intros Hname m Hm Hcallable.
      pose proof (encloses_step _ _ _ _ m Henc eq_refl Hm) as Hencm.
      cbn [class_within] in Hencm.
      destruct (declare_nonempty (Some name) m) as (r & Hr).
      { destruct m; try discriminate; reflexivity. }
      assert (Hin : In r (declare (Some name) m))
        by (rewrite Hr; left; reflexivity).
      exists r; split; [eapply origin_result_node; eassumption|].
      destruct (declare_callable (Some name) m r Hcallable Hin)
        as (_ & Hkey & _ & _ & [(_ & Hty & Hc & _)|(Ht & _)]).
      * injection Hc as ->; auto.
      * destruct name; [congruence|discriminate].
Qed.

(** ** C9: nothing is declared from inside a callable *)

Lemma NoDup_app_disjoint (A : Type) (l1 l2 : list A) (x : A) :
  NoDup (l1 ++ l2) -> In x l1 -> In x l2 -> False.
Proof.
  induction l1 as [|a l1 IH]; intros Hnd H1 H2; [destruct H1|].
  inversion Hnd as [|? ? Hnotin Hnd']; subst.
  destruct H1 as [->|H1].
  - apply Hnotin, in_or_app; right; assumption.
  - apply IH; assumption.
Qed.

Lemma flat_map_Permutation (A B : Type) (f : A -> list B) (l1 l2 : list A) :
  Permutation l1 l2 -> Permutation (flat_map f l1) (flat_map f l2).
Proof.
  induction 1; simpl.
  - reflexivity.
  - apply Permutation_app_head; assumption.
  - rewrite !app_assoc; apply Permutation_app_tail, Permutation_app_comm.
  - etransitivity; eassumption.
Qed.

(** The statements of a file: those the walk reaches and those hidden
    in the callables it reaches. *)
Lemma module_reached_or_hidden (body : list stmt) :
  Permutation (flat_map substmts body)
              (with_hidden (flat_map (reached None) body)).
Proof.
  apply with_hidden_flat_map, Forall_forall; intros s _.
  apply substmts_reached_or_hidden.
Qed.

(** A statement in the body of any callable of the file is hidden in a
    callable the walk reaches. *)
Lemma inside_callable_hidden (body : list stmt) (f d : stmt) :
  In f (flat_map substmts body) ->
  is_callable f = true ->
  In d (flat_map substmts (child_stmts f)) ->
  In d (flat_map hidden (map snd (flat_map (reached None) body))).
Proof.
  intros Hf Hcallable Hd.
  apply (Permutation_in _ (module_reached_or_hidden body)) in Hf.
  unfold with_hidden in Hf; apply in_app_or in Hf as [Hf|Hf].
  - apply in_flat_map; exists f; split; [assumption|].
    unfold hidden; rewrite Hcallable; assumption.
  - apply in_flat_map in Hf as (g & Hg & Hf).
    apply in_flat_map; exists g; split; [assumption|].
    unfold hidden in *; destruct (is_callable g); [|destruct Hf].
    apply (substmts_flat_trans _ f Hf).
    destruct f; try discriminate; right; exact Hd.
Qed.

(** C9.  No definition in the body of a callable has a record in the
    result: where the declarations of the file are told apart by name
    and line, the record of none of them is the record of a definition
    that lies in a callable's body; and the visit of a callable appends
    the record of the callable and nothing else, whatever the body
    holds. *)
Theorem nested_definitions_are_not_emitted
        (source path : string) (result : Result.t) (tree : ast_module)
        (f d : stmt) (r : PythonASTNode) :
  extract (new_extractor source path) = Ok result ->
  ast_parse source path = Ok tree ->
  NoDup (flat_map definition_key (flat_map substmts (module_body tree))) ->
  In f (flat_map substmts (module_body tree)) ->
  is_callable f = true ->
  In d (flat_map substmts (child_stmts f)) ->
  is_definition d = true ->
  In r (Result.nodes result) ->
  definition_key d <> [record_key r]
  /\ (forall (node : stmt) (self : PythonASTExtractor),
         is_callable node = true ->
         nodes (visit node self)
         = nodes self ++ declare (current_class self) node
         /\ List.length (declare (current_class self) node) = 1%nat
         /\ imports (visit node self) = imports self).
Proof.
  intros Hextract Hparse Hnodup Hf Hcallable Hd Hdef Hr.
  split.
  - intros Hkey.
    apply extract_result in Hextract
        as [(Hfail & _)|(tree' & Hparse' & _ & _ & Hnodes & _)]; [congruence|].
    assert (tree' = tree) as -> by congruence.
    set (R := flat_map (reached None) (module_body tree)) in *.
    assert (Hperm : Permutation
                      (flat_map definition_key
                                (flat_map substmts (module_body tree)))
                      (flat_map definition_key (map snd R)
                       ++ flat_map definition_key
                            (flat_map hidden (map snd R)))).
    { rewrite <- flat_map_app.
      apply flat_map_Permutation, module_reached_or_hidden. }
    apply (Permutation_NoDup Hperm) in Hnodup.
    apply (NoDup_app_disjoint _ _ _ (record_key r) Hnodup).
    + rewrite <- declare_keys, <- Hnodes.
      apply in_map; assumption.
    + apply in_flat_map; exists d; split.
      * eapply inside_callable_hidden; eassumption.
      * rewrite Hkey; left; reflexivity.
  - intros node self Hnode.
    destruct (visit_callable node self Hnode) as (Hn & Hi & _).
    repeat split; try assumption.
    destruct (declare_nonempty (current_class self) node) as (r' & ->);
      [|reflexivity].
    destruct node; try discriminate; reflexivity.
Qed.

(** ** C7: the score is at least one *)

Lemma well_formed_incl (l1 l2 : list node_class) :
  incl l1 l2 -> well_formed l2 -> well_formed l1.
Proof.
  unfold well_formed; rewrite !Forall_forall; auto.
Qed.

(** C7, as amended.  Where every boolean combination the parser builds
    has its two operands or more, every record of a result has a score
    of at least 1; the calculator starts at 1 and the visit of a
    statement never lowers its score; and a callable with no counted
    construct anywhere in its declaration (parameters, body, decorators
    and return annotation) scores exactly 1. *)
Theorem complexity_at_least_one
        (source path : string) (result : Result.t) :
  (forall tree,
      ast_parse source path = Ok tree ->
      well_formed (flat_map walk_stmt (module_body tree))) ->
  extract (new_extractor source path) = Ok result ->
  (forall r, In r (Result.nodes result) -> 1 <= Node.cyclomatic_complexity r)
  /\ complexity Calculator.init = 1
  /\ (forall s self,
         well_formed (walk_stmt s) ->
         complexity self <= complexity (Calculator.visit_stmt s self))
  /\ (forall node,
         Forall (fun k => branching k = false) (walk_stmt node) ->
         cyclomatic_complexity_of node = 1).
Proof.
  intros Hwf Hextract; repeat split.
  - intros r Hin.
    destruct (result_node_origin _ _ _ _ Hextract Hin)
      as (tree & s & c' & d & Hparse & Hs & Henc & Hd & Hr).
    destruct (is_callable d) eqn:Hc.
    + destruct (declare_callable c' d r Hc Hr) as (_ & _ & -> & _).
      rewrite complexity_score.
      assert (0 <= score (walk_stmt d)); [|lia].
      apply score_nonneg.
      apply (well_formed_incl _ (flat_map walk_stmt (module_body tree)));
        [|apply Hwf; assumption].
      intros k Hk; apply in_flat_map; exists s; split; [assumption|].
      apply (proj1 substmts_walk s d); [|assumption].
      eapply reached_substmts, encloses_in_reached; eassumption.
    + destruct (declare_class c' d r Hd Hc Hr)
        as (_ & _ & _ & _ & _ & _ & _ & _ & ->).
      lia.
  - intros s self Hs.
    rewrite (proj1 visit_stmt_score); cbn.
    pose proof (score_nonneg _ Hs); lia.
  - intros node Hnode.
    rewrite complexity_score, score_no_branching by assumption; reflexivity.
Qed.

(** ** C3: parameters *)

(** C3, as amended.  The parameters of a callable's record are one
    entry for each positional-or-keyword parameter in declared order,
    named as declared and labelled with its annotation (the empty label
    when it has none), then one entry for the variadic-positional
    parameter, its name after one star, then one for the
    variadic-keyword parameter, its name after two stars; positional-only
    and keyword-only parameters have no entry; and [parameter_count] is
    the length of that sequence. *)
Theorem parameters_in_fixed_order
        (c : option string) (node : stmt) (r : PythonASTNode)
        (posonlyargs regular : list arg) (vararg : option arg)
        (kwonlyargs : list arg) (kw_defaults : list (option expr))
        (kwarg : option arg) (defaults : list expr) :
  callable_args node
  = Some (Arguments posonlyargs regular vararg kwonlyargs kw_defaults kwarg
                    defaults) ->
  In r (declare c node) ->
  Node.parameters r
  = map (parameter "") regular
    ++ opt_list (parameter "*") vararg
    ++ opt_list (parameter "**") kwarg
  /\ Node.parameter_count r = len (Node.parameters r)
  /\ (forall prefix name annotation,
         parameter prefix (Arg name annotation)
         = {| Param.name := String.append prefix name;
              Param.type := match annotation with
                            | Some a => get_annotation_node a
                            | None => ""
                            end |}).
Proof.
  intros Hargs Hin.
  destruct node; try discriminate; injection Hargs as ->;
    unfold declare, visit_FunctionDef, nodes_append in Hin;
    cbn [set_current_class current_class nodes new_extractor app] in Hin;
    (destruct (truthy c); destruct returns; cbn [nodes app] in Hin;
     destruct Hin as [<-|[]]; cbn [Node.parameters Node.parameter_count];
     (split; [|split; [reflexivity|intros ? ? [?|]; reflexivity]]);
     unfold collect_parameters;
     destruct vararg, kwarg; cbn [opt_list];
     rewrite <- ?app_assoc, ?app_nil_r; reflexivity).
Qed.

(** ** C8: from-imports *)

Lemma in_flat_map_split (A B : Type) (f : A -> list B) (l : list A) (x : A) :
  In x l -> exists before after, flat_map f l = before ++ f x ++ after.
Proof.
  intros Hin; apply in_split in Hin as (l1 & l2 & ->).
  exists (flat_map f l1), (flat_map f l2).
  rewrite flat_map_app; reflexivity.
Qed.

(** C8, as amended.  The visit of a from-import statement appends one
    record per imported name, in the order of the statement: its module
    is the module path, a dot and the imported name when the statement
    names a module, the imported name alone otherwise; its name is the
    alias when one is given, the imported name otherwise; its alias is
    the alias when one is given, empty otherwise; its line is the line
    of the statement.  A from-import statement that lies outside the
    body of every callable has these records, in this order, in the
    imports of the result. *)
Theorem from_import_records
        (module : option string) (names : list alias) (level lineno : Z) :
  (forall self,
      imports (visit (ImportFrom module names level lineno) self)
      = imports self ++ map (import_from_info (or_else module "") lineno) names)
  /\ (forall a,
         let r := import_from_info (or_else module "") lineno a in
         (forall c M, module = Some (String c M) ->
                      ImportInfo.module r
                      = String.append (String c M)
                                      (String.append "." (alias_name a)))
         /\ (truthy module = false -> ImportInfo.module r = alias_name a)
         /\ (forall c z, asname a = Some (String c z) ->
                         ImportInfo.name r = String c z
                         /\ ImportInfo.alias r = String c z)
         /\ (asname a = None ->
             ImportInfo.name r = alias_name a /\ ImportInfo.alias r = "")
         /\ ImportInfo.line r = lineno)
  /\ (forall source path result tree s c',
         extract (new_extractor source path) = Ok result ->
         ast_parse source path = Ok tree ->
         In s (module_body tree) ->
         Encloses None s c' (ImportFrom module names level lineno) ->
         exists before after,
           Result.imports result
           = before
               ++ map (import_from_info (or_else module "") lineno) names
               ++ after).
Proof.
  repeat split.
  - intros self.
    rewrite (proj1 visit_emit); cbn [emit imports reached flat_map snd].
    cbn [import_records visit_ImportFrom].
    rewrite fold_imports_append; cbn; rewrite !app_nil_r; reflexivity.
  - intros c M ->; reflexivity.
  - destruct module as [[|c M]|]; cbn; try discriminate; reflexivity.
  - cbn; rewrite H; reflexivity.
  - cbn; rewrite H; reflexivity.
  - cbn; rewrite H; reflexivity.
  - cbn; rewrite H; reflexivity.
  - intros source path result tree s c' Hextract Hparse Hs Henc.
    apply extract_result in Hextract
        as [(Hfail & _)|(tree' & Hparse' & _ & _ & _ & -> & _)]; [congruence|].
    assert (tree' = tree) as -> by congruence.
    destruct (in_flat_map_split
                _ _ (fun p : option string * stmt => import_records (snd p))
                (flat_map (reached None) (module_body tree))
                (c', ImportFrom module names level lineno))
      as (before & after & ->).
    { apply in_flat_map; exists s; split; [assumption|].
      apply reached_iff_encloses; assumption. }
    exists before, after; do 2 f_equal.
    cbn [snd import_records visit_ImportFrom].
    rewrite fold_imports_append; reflexivity.
Qed.

End ExtractorFacts.

(** ** C1: what the score of a callable is computed from *)

(** C1, as amended.  The score recorded for a callable is computed from
    the whole sub-tree of its declaration: 1, plus the score of its
    parameters (defaults and annotations), of its body, of its
    decorators and of its return annotation; and the traversal descends
    into every statement of the body, a nested callable included, which
    adds its own score less one to the callable around it.  That score
    is what the record of the callable holds. *)
Theorem complexity_covers_whole_declaration :
  (forall name args body decorator_list returns lineno end_lineno,
      cyclomatic_complexity_of
        (FunctionDef name args body decorator_list returns lineno end_lineno)
      = 1 + score (walk_arguments args) + score (flat_map walk_stmt body)
        + score (flat_map walk_expr decorator_list)
        + score (walk_opt walk_expr returns))
  /\ (forall name args body decorator_list returns lineno end_lineno,
         cyclomatic_complexity_of
           (AsyncFunctionDef name args body decorator_list returns lineno
                             end_lineno)
         = 1 + score (walk_arguments args) + score (flat_map walk_stmt body)
           + score (flat_map walk_expr decorator_list)
           + score (walk_opt walk_expr returns))
  /\ (forall (before after : list stmt) (inner : stmt),
         score (flat_map walk_stmt (before ++ inner :: after))
         = score (flat_map walk_stmt before)
           + (cyclomatic_complexity_of inner - 1)
           + score (flat_map walk_stmt after))
  /\ (forall (interpreter : Interpreter) (c : option string) (node : stmt)
             (r : PythonASTNode),
         is_callable node = true ->
         In r (declare c node) ->
         Node.cyclomatic_complexity r = cyclomatic_complexity_of node).
Proof.
  repeat split; intros.
  4: { destruct (declare_callable c node r H H0) as (_ & _ & Hcc & _).
       exact Hcc. }
  - rewrite complexity_score; cbn [walk_stmt].
    rewrite score_cons, !score_app; cbn [increment]; lia.
  - rewrite complexity_score; cbn [walk_stmt].
    rewrite score_cons, !score_app; cbn [increment]; lia.
  - rewrite flat_map_app; cbn [flat_map].
    rewrite !score_app, complexity_score; lia.
Qed.

(** C1 as it is written fails.  The conditional in the body of [inner]
    adds one to the score of [outer] in
    [def outer(): def inner(x): if x: pass], and the boolean
    combination in the default of [def f(x=a or b): pass] adds one to
    the score of [f]. *)
Lemma complexity_descends_into_nested_callables :
  ~ (forall outer inner body body' : _,
        is_callable outer = true ->
        is_callable inner = true ->
        cyclomatic_complexity_of
          (Sample.with_body [Sample.with_body body inner] outer)
        = cyclomatic_complexity_of
            (Sample.with_body [Sample.with_body body' inner] outer))
  /\ ~ (forall node args args' : _,
           is_callable node = true ->
           cyclomatic_complexity_of (Sample.with_args args node)
           = cyclomatic_complexity_of (Sample.with_args args' node)).
Proof.
  split; intros claim.
  - specialize (claim Sample.outer_def Sample.inner_def
                      [If (Name "x") [Sample.pass] []] [Sample.pass]
                      eq_refl eq_refl).
    vm_compute in claim; discriminate.
  - specialize (claim Sample.default_def
                      (Arguments [] [Arg "x" None] None [] [] None
                                 [BoolOp Or [Name "a"; Name "b"]])
                      (Sample.positional ["x"]) eq_refl).
    vm_compute in claim; discriminate.
Qed.

(** ** C5 and C2: the outcome of a run *)

Section MainFacts.

Context {interpreter : Interpreter}.

Lemma len_two (A : Type) (x y : A) : negb (len [x; y] =? 2) = false.
Proof.
  reflexivity.
Qed.

(** C5.  When the file is read and its text does not parse (the parser
    raises a SyntaxError), the run prints the document whose module is
    the base name of the path without its extension and whose nodes,
    imports and relationships are empty, and ends with status 0. *)
Theorem syntax_error_keeps_module_name (prog path source : string) :
  read_file path = Ok source ->
  ast_parse source path = Raise SyntaxError ->
  main [prog; path]
  = {| stdout :=
         [Json.dumps_compact
            (Json.Obj
               [("module",
                  Json.Str (fst (os_path_splitext (os_path_basename path))));
                ("nodes", Json.Arr []);
                ("imports", Json.Arr []);
                ("relationships", Json.Arr [])])];
       exit_status := 0 |}.
Proof.
  intros Hread Hparse.
  unfold main; rewrite len_two; cbn [nth].
  rewrite Hread; cbn [bind].
  unfold extract; cbn [source_code file_path new_extractor].
  rewrite Hparse; reflexivity.
Qed.

(** C2, as amended.  On an invocation with one argument the run prints
    the empty document of the usage error (module empty, no nodes, no
    imports, no relationships) and ends with status 0 when the file
    cannot be read, when the parser raises an exception that is not a
    SyntaxError, and when the traversal is stopped by the interpreter;
    the usage error prints the same line and ends with status 1.  (A
    SyntaxError of the parser is answered by [extract]: see C5.) *)
Theorem failures_print_empty_document (prog path : string) :
  (forall e, read_file path = Raise e -> main [prog; path] = soft_failure)
  /\ (forall source e,
         read_file path = Ok source ->
         ast_parse source path = Raise e ->
         e <> SyntaxError ->
         main [prog; path] = soft_failure)
  /\ (forall source tree,
         read_file path = Ok source ->
         ast_parse source path = Ok tree ->
         exceeds_recursion_limit tree = true ->
         main [prog; path] = soft_failure)
  /\ (forall argv,
         len argv <> 2 ->
         main argv = {| stdout := stdout soft_failure; exit_status := 1 |}).
Proof.
  repeat split.
  - intros e Hread.
    unfold main; rewrite len_two; cbn [nth].
    rewrite Hread; reflexivity.
  - intros source e Hread Hparse He.
    unfold main; rewrite len_two; cbn [nth].
    rewrite Hread; cbn [bind].
    unfold extract; cbn [source_code file_path new_extractor].
    rewrite Hparse; destruct e; try reflexivity; congruence.
  - intros source tree Hread Hparse Hlimit.
    unfold main; rewrite len_two; cbn [nth].
    rewrite Hread; cbn [bind].
    unfold extract; cbn [source_code file_path new_extractor].
    rewrite Hparse; cbn [bind]; rewrite Hlimit; reflexivity.
  - intros argv Hargv.
    unfold main.
    destruct (len argv =? 2) eqn:E; [apply Z.eqb_eq in E; contradiction|].
    reflexivity.
Qed.

End MainFacts.

(** C2 as it is written fails: a SyntaxError of the parser is an
    exception during the parse, and the run on [pkg/bad.py] prints a
    document whose module is [bad], which is the empty document under
    neither choice of separators. *)
Lemma syntax_error_prints_module_name :
  ~ (forall (interpreter : Interpreter) (prog path source : string)
            (e : exception),
        read_file path = Ok source ->
        ast_parse source path = Raise e ->
        exists line,
          main [prog; path] = {| stdout := [line]; exit_status := 0 |}
          /\ (line = Json.dumps_default empty_document
              \/ line = Json.dumps_compact empty_document)).
Proof.
  intros claim.
  destruct (claim Sample.calc_host "prog" "pkg/bad.py" "def f(:" SyntaxError
                  eq_refl eq_refl) as (line & Hmain & Hline).
  vm_compute in Hmain; injection Hmain as <-.
  destruct Hline as [H|H]; vm_compute in H; discriminate.
Qed.

(** C7 as it is written fails: the body of [def f(x=a or b): pass]
    holds no branching construct and [f] scores 2. *)
Lemma complexity_above_one_without_branching_body :
  ~ (forall node : stmt,
        is_callable node = true ->
        Forall (fun k => branching k = false)
               (flat_map walk_stmt (child_stmts node)) ->
        cyclomatic_complexity_of node = 1).
Proof.
  intros claim.
  assert (H : cyclomatic_complexity_of Sample.default_def = 1).
  { apply claim; [reflexivity|].
    repeat constructor. }
  vm_compute in H; discriminate.
Qed.

(** C3 as it is written fails: [def f(a, *, b): pass] declares two
    parameters and its record has one, [a]. *)
Lemma keyword_only_parameters_have_no_entry :
  ~ (forall (interpreter : Interpreter) (c : option string) (node : stmt)
            (args : arguments) (r : PythonASTNode),
        callable_args node = Some args ->
        In r (declare c node) ->
        Node.parameter_count r = len (declared_parameters args)).
Proof.
  intros claim.
  specialize (claim Sample.calc_host None Sample.kwonly_def _ _
                    eq_refl (or_introl eq_refl)).
  vm_compute in claim; discriminate.
Qed.

(** C8 as it is written fails: the from-import in the body of
    [def load(): from json import loads as parse] has no record in the
    imports of the result. *)
Lemma from_import_in_callable_has_no_record :
  ~ (forall (interpreter : Interpreter) (source path : string)
            (result : Result.t) (tree : ast_module)
            (module : option string) (names : list alias) (level lineno : Z)
            (a : alias),
        extract (new_extractor source path) = Ok result ->
        ast_parse source path = Ok tree ->
        In (ImportFrom module names level lineno)
           (flat_map substmts (module_body tree)) ->
        In a names ->
        In (import_from_info (or_else module "") lineno a)
           (Result.imports result)).
Proof.
  intros claim.
  specialize (claim Sample.imports_host "IMPORTS" "imports.py" _ _
                    (Some "json") [Alias "loads" (Some "parse")] 0 2
                    (Alias "loads" (Some "parse"))
                    eq_refl eq_refl).
  assert (H : In (import_from_info
                    (or_else (Some "json") "") 2
                    (Alias "loads" (Some "parse")))
                 (Result.imports
                    (Sample.run_extract Sample.imports_host
                                        "IMPORTS" "imports.py"))).
  { apply claim; [|left; reflexivity].
    right; right; left; reflexivity. }
  vm_compute in H.
  destruct H as [H|[H|[]]]; discriminate.
Qed.

(** ** The theorems at work on the sample inputs *)

(** C2 on a path the host has no file for. *)
Lemma failures_print_empty_document_witness :
  @read_file Sample.calc_host "missing.py" = Raise OSError
  /\ @main Sample.calc_host ["extractor"; "missing.py"] = soft_failure
  /\ @main Sample.calc_host ["extractor"]
     = {| stdout := stdout soft_failure; exit_status := 1 |}.
Proof.
  pose proof (@failures_print_empty_document
                Sample.calc_host "extractor" "missing.py")
    as (Hread & _ & _ & Husage).
  split; [reflexivity|split].
  - exact (Hread OSError eq_refl).
  - apply Husage; discriminate.
Defined.

(** C3 on [def f(a: int, *rest, **opts) -> str: pass]. *)
Lemma parameters_in_fixed_order_witness :
  let r := nth 0 (@declare Sample.calc_host None Sample.variadic_def)
               (Node.init "" "" 0 0) in
  callable_args Sample.variadic_def
  = Some (Arguments [] [Arg "a" (Some (Name "int"))] (Some (Arg "rest" None))
                    [] [] (Some (Arg "opts" None)) [])
  /\ In r (@declare Sample.calc_host None Sample.variadic_def)
  /\ Node.parameters r
     = [ {| Param.name := "a"; Param.type := "int" |};
         {| Param.name := "*rest"; Param.type := "" |};
         {| Param.name := "**opts"; Param.type := "" |} ]
  /\ Node.parameter_count r = 3.
Proof.
  intros r.
  assert (Hargs : callable_args Sample.variadic_def
                  = Some (Arguments [] [Arg "a" (Some (Name "int"))]
                                    (Some (Arg "rest" None))
                                    [] [] (Some (Arg "opts" None)) []))
    by reflexivity.
  assert (Hin : In r (@declare Sample.calc_host None Sample.variadic_def))
    by (left; reflexivity).
  destruct (@parameters_in_fixed_order
              Sample.calc_host None Sample.variadic_def r
              _ _ _ _ _ _ _ Hargs Hin) as (Hparams & Hcount & _).
  split; [exact Hargs|split; [exact Hin|split]].
  - exact Hparams.
  - rewrite Hcount, Hparams; reflexivity.
Defined.

(** C4 on the method [add] of [testdata/calculator.py]. *)
Lemma methods_have_parents_functions_have_none_witness :
  let result :=
    Sample.run_extract Sample.calc_host "CALC" "testdata/calculator.py" in
  let r := Sample.nth_node 2 result in
  @extract Sample.calc_host (new_extractor "CALC" "testdata/calculator.py")
  = Ok result
  /\ In r (Result.nodes result)
  /\ Node.name r = "add"
  /\ Node.type r = "method"
  /\ Node.parent r <> ""
  /\ (Node.type (Sample.nth_node 4 result) = "function" ->
      Node.parent (Sample.nth_node 4 result) = "").
Proof.
  intros result r.
  assert (Hextract : @extract Sample.calc_host
                              (new_extractor "CALC" "testdata/calculator.py")
                     = Ok result) by reflexivity.
  assert (Hin : In r (Result.nodes result))
    by (right; right; left; reflexivity).
  assert (Hin' : In (Sample.nth_node 4 result) (Result.nodes result))
    by (right; right; right; right; left; reflexivity).
  destruct (@methods_have_parents_functions_have_none
              Sample.calc_host _ _ result r Hextract Hin) as (Hmethod & _ & _).
  destruct (@methods_have_parents_functions_have_none
              Sample.calc_host _ _ result _ Hextract Hin') as (_ & Hfun & _).
  repeat split; try assumption.
  exact (proj1 (Hmethod eq_refl)).
Defined.

(** C5 on [pkg/bad.py], whose text does not parse. *)
Lemma syntax_error_keeps_module_name_witness :
  @read_file Sample.calc_host "pkg/bad.py" = Ok "def f(:"
  /\ @ast_parse Sample.calc_host "def f(:" "pkg/bad.py" = Raise SyntaxError
  /\ @main Sample.calc_host ["extractor"; "pkg/bad.py"]
     = {| stdout :=
            [Json.dumps_compact
               (Json.Obj
                  [("module", Json.Str "bad");
                   ("nodes", Json.Arr []);
                   ("imports", Json.Arr []);
                   ("relationships", Json.Arr [])])];
          exit_status := 0 |}.
Proof.
  split; [reflexivity|split; [reflexivity|]].
  exact (@syntax_error_keeps_module_name
           Sample.calc_host "extractor" "pkg/bad.py" "def f(:"
           eq_refl eq_refl).
Defined.

(** C7 on [testdata/calculator.py]. *)
Lemma complexity_at_least_one_witness :
  let result :=
    Sample.run_extract Sample.calc_host "CALC" "testdata/calculator.py" in
  (forall tree,
      @ast_parse Sample.calc_host "CALC" "testdata/calculator.py" = Ok tree ->
      well_formed (flat_map walk_stmt (module_body tree)))
  /\ @extract Sample.calc_host (new_extractor "CALC" "testdata/calculator.py")
     = Ok result
  /\ (forall r, In r (Result.nodes result) -> 1 <= Node.cyclomatic_complexity r).
Proof.
  intros result.
  assert (Hwf : forall tree,
             @ast_parse Sample.calc_host "CALC" "testdata/calculator.py"
             = Ok tree ->
             well_formed (flat_map walk_stmt (module_body tree))).
  { intros tree H; cbn in H; injection H as <-.
    repeat constructor. }
  split; [exact Hwf|split; [reflexivity|]].
  exact (proj1 (@complexity_at_least_one
                  Sample.calc_host "CALC" "testdata/calculator.py" result
                  Hwf eq_refl)).
Defined.

(** C8 on [from typing import Optional, Dict]. *)
Lemma from_import_records_witness :
  map ImportInfo.module
      (imports (@visit Sample.calc_host Sample.from_typing
                       (new_extractor "" "")))
  = ["typing.Optional"; "typing.Dict"]
  /\ map ImportInfo.name
         (imports (@visit Sample.calc_host Sample.from_typing
                          (new_extractor "" "")))
     = ["Optional"; "Dict"].
Proof.
  unfold Sample.from_typing.
  rewrite (proj1 (@from_import_records
                    Sample.calc_host (Some "typing")
                    [Alias "Optional" None; Alias "Dict" None] 0 3)
                 (new_extractor "" "")).
  split; reflexivity.
Defined.

(** C9 on [def outer(): def inner(x): if x: pass]. *)
Lemma nested_definitions_are_not_emitted_witness :
  let result := Sample.run_extract Sample.outer_host "OUTER" "outer.py" in
  NoDup (flat_map definition_key (flat_map substmts [Sample.outer_def]))
  /\ In Sample.inner_def (flat_map substmts (child_stmts Sample.outer_def))
  /\ map Node.name (Result.nodes result) = ["outer"]
  /\ (forall r, In r (Result.nodes result) ->
                definition_key Sample.inner_def <> [record_key r]).
Proof.
  intros result.
  assert (Hnodup : NoDup (flat_map definition_key
                                   (flat_map substmts [Sample.outer_def]))).
  { cbn. constructor; [intros [H|[]]; discriminate|].
    constructor; [intros []|constructor]. }
  assert (Hinner : In Sample.inner_def
                      (flat_map substmts (child_stmts Sample.outer_def)))
    by (left; reflexivity).
  split; [exact Hnodup|split; [exact Hinner|split; [reflexivity|]]].
  intros r Hr.
  exact (proj1 (@nested_definitions_are_not_emitted
                  Sample.outer_host "OUTER" "outer.py" result
                  (PyModule [Sample.outer_def])
                  Sample.outer_def Sample.inner_def r
                  eq_refl eq_refl Hnodup (or_introl eq_refl) eq_refl
                  Hinner eq_refl Hr)).
Defined.

(** C10 on [class Outer: class Inner: def m(self): pass]. *)
Lemma class_records_have_no_parent_witness :
  let result := Sample.run_extract Sample.classes_host "CLASSES" "classes.py" in
  @extract Sample.classes_host (new_extractor "CLASSES" "classes.py")
  = Ok result
  /\ map Node.name (Result.nodes result) = ["Outer"; "Inner"; "m"]
  /\ map Node.type (Result.nodes result) = ["class"; "class"; "method"]
  /\ map Node.parent (Result.nodes result) = [""; ""; "Inner"]
  /\ (forall r,
         In r (Result.nodes result) ->
         Node.type r = "class" ->
         Node.parent r = ""
         /\ Node.parameters r = []
         /\ Node.return_values r = []
         /\ Node.parameter_count r = 0
         /\ Node.return_count r = 0).
Proof.
  intros result.
  split; [reflexivity|split; [reflexivity|split; [reflexivity|split]]].
  - reflexivity.
  - exact (proj1 (@class_records_have_no_parent
                    Sample.classes_host "CLASSES" "classes.py" result
                    eq_refl)).
Defined.

(** C1 on [def outer(): def inner(x): if x: pass]. *)
Lemma complexity_covers_whole_declaration_witness :
  let r := nth 0 (@declare Sample.outer_host None Sample.outer_def)
               (Node.init "" "" 0 0) in
  is_callable Sample.outer_def = true
  /\ In r (@declare Sample.outer_host None Sample.outer_def)
  /\ cyclomatic_complexity_of Sample.inner_def = 2
  /\ Node.cyclomatic_complexity r = 2.
Proof.
  intros r.
  destruct complexity_covers_whole_declaration as (_ & _ & _ & Hrecord).
  assert (Hin : In r (@declare Sample.outer_host None Sample.outer_def))
    by (left; reflexivity).
  split; [reflexivity|split; [exact Hin|split; [reflexivity|]]].
  rewrite (Hrecord Sample.outer_host None Sample.outer_def r eq_refl Hin).
  reflexivity.
Defined.

(** * Further properties of the extractor *)

Section WalkFacts.

Context {interpreter : Interpreter}.

(** X1.  The visit of a statement leaves the current-class register,
    the source text, the path and the relationships as it found them,
    and only appends: the records and imports that were there stay, in
    place, at the front. *)
Theorem visit_restores_register_and_appends
        (s : stmt) (self : PythonASTExtractor) :
  current_class (visit s self) = current_class self
  /\ source_code (visit s self) = source_code self
  /\ file_path (visit s self) = file_path self
  /\ relationships (visit s self) = relationships self
  /\ (exists added, nodes (visit s self) = nodes self ++ added)
  /\ (exists added, imports (visit s self) = imports self ++ added).
Proof.
  rewrite (proj1 visit_emit); cbn [emit current_class source_code file_path
                                   relationships nodes imports].
  repeat split; eauto.
Qed.

(** The records of a result, read off the walk. *)
Lemma result_of_tree (source path : string) (result : Result.t)
      (tree : ast_module) :
  extract (new_extractor source path) = Ok result ->
  ast_parse source path = Ok tree ->
  Result.nodes result
  = flat_map (fun p => declare (fst p) (snd p))
             (flat_map (reached None) (module_body tree))
  /\ Result.imports result
     = flat_map (fun p => import_records (snd p))
                (flat_map (reached None) (module_body tree)).
Proof.
  intros Hextract Hparse.
  apply extract_result in Hextract
      as [(Hfail & _)|(tree' & Hparse' & _ & _ & Hnodes & Himports & _)];
    [congruence|].
  assert (tree' = tree) as -> by congruence.
  split; assumption.
Qed.

(** X2.  The nodes of a result are one record for each class and
    function definition outside the body of every callable, in the
    order of the top-down walk: their names and lines are those of the
    definitions, one for one. *)
Theorem one_record_per_definition_in_walk_order
        (source path : string) (result : Result.t) (tree : ast_module) :
  extract (new_extractor source path) = Ok result ->
  ast_parse source path = Ok tree ->
  map record_key (Result.nodes result)
  = flat_map definition_key
             (map snd (flat_map (reached None) (module_body tree))).
Proof.
  intros Hextract Hparse.
  rewrite (proj1 (result_of_tree _ _ _ _ Hextract Hparse)).
  apply declare_keys.
Qed.

(** X3.  A definition under an if, a loop, a with, a try or a match
    at module level or in a class body, outside the body of every
    callable, has its record in the result. *)
Theorem guarded_definitions_are_emitted
        (source path : string) (result : Result.t) (tree : ast_module)
        (s : stmt) (c' : option string) (d : stmt) :
  extract (new_extractor source path) = Ok result ->
  ast_parse source path = Ok tree ->
  In s (module_body tree) ->
  Encloses None s c' d ->
  is_definition d = true ->
  exists r, In r (Result.nodes result) /\ definition_key d = [record_key r].
Proof.
  intros Hextract Hparse Hs Henc Hd.
  destruct (declare_nonempty c' d Hd) as (r & Hr).
  assert (Hin : In r (declare c' d)) by (rewrite Hr; left; reflexivity).
  exists r; split; [eapply origin_result_node; eassumption|].
  destruct (is_callable d) eqn:Hc.
  - apply (declare_callable c' d r Hc Hin).
  - apply (declare_class c' d r Hd Hc Hin).
Qed.

(** The record of a callable, field by field. *)
Lemma declare_callable_fields (c : option string) (d : stmt) (r : PythonASTNode)
      (args : arguments) :
  callable_args d = Some args ->
  In r (declare c d) ->
  Node.parameters r = collect_parameters args
  /\ Node.parameter_count r = len (Node.parameters r)
  /\ Node.return_count r = len (Node.return_values r)
  /\ (Node.return_count r = 0 \/ Node.return_count r = 1).
Proof.
  intros Hargs Hin.
  destruct d; try discriminate; injection Hargs as ->;
    unfold declare, visit_FunctionDef, nodes_append in Hin;
    cbn [set_current_class current_class nodes new_extractor app] in Hin;
    destruct (truthy c); destruct returns; cbn [nodes app] in Hin;
    destruct Hin as [<-|[]]; cbn; auto.
Qed.

(** X4.  Every record of a result is of kind class, function or
    method; its [parameter_count] is the length of its parameters and
    its [return_count] the length of its return values, which is 0 or
    1; only a class record has base classes; and a class record has
    score 1. *)
Theorem records_are_well_formed
        (source path : string) (result : Result.t) (r : PythonASTNode) :
  extract (new_extractor source path) = Ok result ->
  In r (Result.nodes result) ->
  (Node.type r = "class" \/ Node.type r = "function" \/ Node.type r = "method")
  /\ Node.parameter_count r = len (Node.parameters r)
  /\ Node.return_count r = len (Node.return_values r)
  /\ (Node.return_count r = 0 \/ Node.return_count r = 1)
  /\ (Node.type r <> "class" -> Node.base_classes r = [])
  /\ (Node.type r = "class" -> Node.cyclomatic_complexity r = 1).
Proof.
  intros Hextract Hin.
  destruct (result_node_origin _ _ _ _ Hextract Hin)
    as (tree & s & c' & d & _ & _ & _ & Hd & Hr).
  destruct (is_callable d) eqn:Hc.
  - destruct (callable_args d) as [args|] eqn:Hargs;
      [|destruct d; discriminate].
    destruct (declare_callable_fields c' d r args Hargs Hr)
      as (_ & Hpc & Hrc & Hrc01).
    destruct (declare_callable c' d r Hc Hr)
      as (_ & _ & _ & Hbases & [(_ & Hty & _)|(_ & Hty & _)]);
      rewrite Hty; repeat split; auto; discriminate.
  - destruct (declare_class c' d r Hd Hc Hr)
      as (_ & _ & Hty & _ & Hps & Hrs & Hpc & Hrc & Hcc).
    rewrite Hty, Hps, Hrs, Hpc, Hrc; repeat split; auto.
    intros H; contradiction H; reflexivity.
Qed.

End WalkFacts.

Section HandlerFacts.

Context {interpreter : Interpreter}.

(** X5.  The record of a function, synchronous or not, has one return
    value, unnamed and labelled with the return annotation, and
    [return_count] 1 when the declaration has a return annotation, no
    return value and [return_count] 0 when it has none; its decorators
    are the labels of the decorator expressions in written order. *)
Theorem callable_record_returns_and_decorators
        (c : option string) (node : stmt) (r : PythonASTNode)
        (name : string) (args : arguments) (body : list stmt)
        (decorator_list : list expr) (returns : option expr)
        (lineno : Z) (end_lineno : option Z) :
  node = FunctionDef name args body decorator_list returns lineno end_lineno
  \/ node = AsyncFunctionDef name args body decorator_list returns lineno
                             end_lineno ->
  In r (declare c node) ->
  Node.name r = name
  /\ Node.start_line r = lineno
  /\ Node.decorators r = map _get_name_from_node decorator_list
  /\ match returns with
     | Some annotation =>
         Node.return_values r
         = [{| Param.name := ""; Param.type := get_annotation_node annotation |}]
         /\ Node.return_count r = 1
     | None => Node.return_values r = [] /\ Node.return_count r = 0
     end.
Proof.
  intros [->| ->] Hin;
    unfold declare, visit_FunctionDef, nodes_append in Hin;
    cbn [set_current_class current_class nodes new_extractor app] in Hin;
    destruct (truthy c); destruct returns; cbn [nodes app] in Hin;
    destruct Hin as [<-|[]]; cbn; auto.
Qed.

(** X6.  An asynchronous function is handled as a synchronous one: where
    the parser gave the declaration its last line, the visit of
    [async def] leaves the extractor exactly as the visit of the same
    [def] does. *)
Theorem async_function_like_function
        (self : PythonASTExtractor)
        (name : string) (args : arguments) (body : list stmt)
        (decorator_list : list expr) (returns : option expr)
        (lineno last : Z) :
  last <> 0 ->
  visit (AsyncFunctionDef name args body decorator_list returns lineno
                          (Some last)) self
  = visit (FunctionDef name args body decorator_list returns lineno
                       (Some last)) self.
Proof.
  intros Hlast; cbn [visit]; unfold visit_FunctionDef, _get_end_line.
  destruct (last =? 0) eqn:E; [apply Z.eqb_eq in E; contradiction|].
  reflexivity.
Qed.

(** X7.  A class outside the body of every callable has a record in the
    result with its name and line, whose base classes are the labels
    of the base expressions in declared order and whose decorators are
    the labels of the decorator expressions in written order. *)
Theorem class_record_bases_and_decorators
        (source path : string) (result : Result.t) (tree : ast_module)
        (s : stmt) (c' : option string)
        (name : string) (bases keywords : list expr) (body : list stmt)
        (decorator_list : list expr) (lineno : Z) (end_lineno : option Z) :
  extract (new_extractor source path) = Ok result ->
  ast_parse source path = Ok tree ->
  In s (module_body tree) ->
  Encloses None s c'
           (ClassDef name bases keywords body decorator_list lineno
                     end_lineno) ->
  exists r,
    In r (Result.nodes result)
    /\ Node.type r = "class"
    /\ Node.name r = name
    /\ Node.start_line r = lineno
    /\ Node.base_classes r = map _get_name_from_node bases
    /\ Node.decorators r = map _get_name_from_node decorator_list.
Proof.
  intros Hextract Hparse Hs Henc.
  eexists; split.
  - eapply origin_result_node; try eassumption.
    unfold declare, visit_ClassDef, nodes_append; cbn; left; reflexivity.
  - cbn; auto.
Qed.


Lemma resolvers_same_label (e : expr) :
  get_annotation_node e = _get_name_from_node e.
Proof.
  induction e using expr_mind
    with (P0 := fun _ => True) (P1 := fun _ => True) (P2 := fun _ => True);
    cbn [get_annotation_node _get_name_from_node]; try exact I;
    try reflexivity.
Qed.

(** X9.  The resolver of annotations and the resolver of decorators and
    base classes give every expression the same label, and an absent
    annotation the empty label. *)
Theorem label_resolvers_agree :
  (forall e : expr, _get_annotation (Some e) = _get_name_from_node e)
  /\ _get_annotation None = "".
Proof.
  split; [intros e; apply resolvers_same_label|reflexivity].
Qed.




End HandlerFacts.

Section ImportFacts.

Context {interpreter : Interpreter}.

(** X11.  The visit of [import X, Y as Z] appends one record per name,
    in the order of the statement, and no node: the module of a record
    is the imported path as written, its name the alias when one is
    given and the whole path otherwise, its alias the alias when one is
    given and empty otherwise, its line the line of the statement. *)
Theorem plain_import_records (names : list alias) (lineno : Z) :
  (forall self,
      imports (visit (Import names lineno) self)
      = imports self ++ map (import_info lineno) names
      /\ nodes (visit (Import names lineno) self) = nodes self)
  /\ (forall a,
         let r := import_info lineno a in
         ImportInfo.module r = alias_name a
         /\ (forall c z, asname a = Some (String c z) ->
                         ImportInfo.name r = String c z
                         /\ ImportInfo.alias r = String c z)
         /\ (asname a = None ->
             ImportInfo.name r = alias_name a /\ ImportInfo.alias r = "")
         /\ ImportInfo.line r = lineno).
Proof.
  split.
  - intros self; cbn [visit visit_Import].
    rewrite fold_imports_append; cbn; auto.
  - intros a; cbn; repeat split; intros; rewrite H; reflexivity.
Qed.

Lemma import_records_of_stmt (s : stmt) : import_records s = imports_of_stmt s.
Proof.
  destruct s; try reflexivity;
    cbn [import_records imports_of_stmt visit_Import visit_ImportFrom];
    rewrite fold_imports_append; reflexivity.
Qed.

(** X12.  The imports of a result are the records of the import and
    from-import statements outside the body of every callable, in the
    order of the statements and, within a statement, of its names;
    no other statement adds one. *)
Theorem imports_in_statement_order
        (source path : string) (result : Result.t) (tree : ast_module) :
  extract (new_extractor source path) = Ok result ->
  ast_parse source path = Ok tree ->
  Result.imports result
  = flat_map imports_of_stmt
             (map snd (flat_map (reached None) (module_body tree))).
Proof.
  intros Hextract Hparse.
  rewrite (proj2 (result_of_tree _ _ _ _ Hextract Hparse)).
  induction (flat_map (reached None) (module_body tree)) as [|p l IH];
    [reflexivity|].
  cbn [flat_map map]; rewrite IH, import_records_of_stmt; reflexivity.
Qed.

(** X13.  [extract] never raises a SyntaxError: it raises exactly the
    exception of the parser when that is not a SyntaxError, and the
    RecursionError of a traversal the interpreter stops. *)
Theorem extract_raises_no_SyntaxError (source path : string) (e : exception) :
  extract (new_extractor source path) = Raise e
  <-> (ast_parse source path = Raise e /\ e <> SyntaxError)
      \/ (exists tree,
             ast_parse source path = Ok tree
             /\ exceeds_recursion_limit tree = true
             /\ e = RecursionError).
Proof.
  unfold extract; cbn [source_code file_path new_extractor].
  destruct (ast_parse source path) as [tree|e'] eqn:Hparse; cbn [bind].
  - destruct (exceeds_recursion_limit tree) eqn:Hlimit;
      cbn [bind except_SyntaxError]; split.
    + intros H; injection H as <-; right; exists tree; auto.
    + intros [(H & _)|(tree' & _ & _ & ->)]; [discriminate|reflexivity].
    + discriminate.
    + intros [(H & _)|(tree' & H & Hl & _)]; [discriminate|].
      injection H as <-; congruence.
  - split.
    + destruct e'; cbn [except_SyntaxError]; try discriminate;
        intros H; injection H as <-; left; split;
        try reflexivity; discriminate.
    + intros [(H & He)|(tree & H & _)]; [|discriminate].
      injection H as ->.
      destruct e; cbn [except_SyntaxError]; try reflexivity; congruence.
Qed.

(** X14.  Whatever the parse gave, the module of a result is the base
    name of the path without its extension, and its relationships are
    empty. *)
Theorem result_module_and_relationships
        (source path : string) (result : Result.t) :
  extract (new_extractor source path) = Ok result ->
  Result.module result = fst (os_path_splitext (os_path_basename path))
  /\ Result.relationships result = [].
Proof.
  intros Hextract.
  apply extract_result in Hextract
      as [(_ & ->)|(tree & _ & _ & Hmodule & _ & _ & Hrel)]; auto.
Qed.

(** X15.  Every run prints exactly one line, and ends with status 1
    when it was not given exactly one argument and with status 0
    otherwise, whatever happens to the file. *)
Theorem main_prints_one_line (argv : list string) :
  exists line,
    main argv
    = {| stdout := [line];
         exit_status := if len argv =? 2 then 0 else 1 |}.
Proof.
  unfold main.
  destruct (len argv =? 2); cbn [negb]; [|eauto].
  destruct (bind _ _); eauto.
Qed.

(** X16.  When the file is read, its text parses and the traversal
    runs to its end, the run prints the compact document of the
    module name, the records of the walk, its imports and no
    relationships, and ends with status 0. *)
Theorem main_prints_the_result (prog path source : string) (tree : ast_module) :
  read_file path = Ok source ->
  ast_parse source path = Ok tree ->
  exceeds_recursion_limit tree = false ->
  main [prog; path]
  = {| stdout :=
         [Json.dumps_compact
            (Json.Obj
               [("module",
                  Json.Str (fst (os_path_splitext (os_path_basename path))));
                ("nodes",
                  Json.Arr
                    (map _node_to_dict
                         (nodes (visit_Module
                                   tree (new_extractor source path)))));
                ("imports",
                  Json.Arr
                    (map import_to_dict
                         (imports (visit_Module
                                     tree (new_extractor source path)))));
                ("relationships", Json.Arr [])])];
       exit_status := 0 |}.
Proof.
  intros Hread Hparse Hlimit.
  unfold main; rewrite len_two; cbn [nth].
  rewrite Hread; cbn [bind].
  unfold extract; cbn [source_code file_path new_extractor].
  rewrite Hparse; cbn [bind]; rewrite Hlimit; cbn [bind except_SyntaxError].
  unfold document, _get_module_name; cbn [Result.module Result.nodes
                                           Result.imports Result.relationships].
  rewrite !visit_Module_emit; reflexivity.
Qed.

End ImportFacts.

(** ** The printed line *)










(** ** More on the score *)

Lemma complexity_visit_stmts (l : list stmt)
      (self : CyclomaticComplexityCalculator) :
  complexity (visit_all Calculator.visit_stmt l self)
  = complexity self + score (flat_map walk_stmt l).
Proof.
  rewrite (visit_all_score _ _ walk_stmt); [reflexivity|].
  apply Forall_forall; intros s _; apply visit_stmt_score.
Qed.

(** X18.  On a chain [if ... elif ... else] the calculator adds one for
    the if and one for each elif, on top of what the tests and the
    bodies hold; the final else adds what its statements hold and
    nothing for itself. *)
Theorem elif_chain_score
        (clauses : list (expr * list stmt)) (final : list stmt)
        (self : CyclomaticComplexityCalculator) :
  complexity (visit_all Calculator.visit_stmt (elif_chain clauses final) self)
  = complexity self + len clauses + clauses_score clauses
    + score (flat_map walk_stmt final).
Proof.
  rewrite complexity_visit_stmts.
  assert (H : score (flat_map walk_stmt (elif_chain clauses final))
              = len clauses + clauses_score clauses
                + score (flat_map walk_stmt final)); [|lia].
  induction clauses as [|[test body] rest IH]; cbn [elif_chain].
  - unfold clauses_score, len; cbn; lia.
  - cbn [flat_map walk_stmt]; rewrite app_nil_r.
    rewrite score_cons, !score_app, IH.
    unfold clauses_score, len; cbn [map Zsum fold_right fst snd List.length increment].
    rewrite Nat2Z.inj_succ; unfold Zsum; lia.
Qed.

(** X19.  On a try statement the calculator adds one for each except
    clause and nothing for the try, else and finally blocks themselves;
    on a match statement it adds nothing for the cases: both add what
    the expressions and statements inside them hold. *)
Theorem try_and_match_score
        (self : CyclomaticComplexityCalculator) :
  (forall body handlers orelse finalbody,
      complexity (Calculator.visit_stmt
                    (Try body handlers orelse finalbody) self)
      = complexity self + len handlers
        + score (flat_map walk_stmt body)
        + Zsum (map (fun h =>
                       match h with
                       | ExceptHandler type _ handler_body =>
                           score (walk_opt walk_expr type)
                           + score (flat_map walk_stmt handler_body)
                       end) handlers)
        + score (flat_map walk_stmt orelse)
        + score (flat_map walk_stmt finalbody))
  /\ (forall subject cases,
         complexity (Calculator.visit_stmt (Match subject cases) self)
         = complexity self + score (walk_expr subject)
           + Zsum (map (fun m =>
                          match m with
                          | MatchCase pattern guard case_body =>
                              score (flat_map walk_expr pattern)
                              + score (walk_opt walk_expr guard)
                              + score (flat_map walk_stmt case_body)
                          end) cases)).
Proof.
  split; intros; rewrite (proj1 visit_stmt_score);
    cbn [Calculator.add complexity walk_stmt];
    rewrite score_cons, !score_app; cbn [increment].
  - assert (H : score (flat_map walk_excepthandler handlers)
                = len handlers
                  + Zsum (map (fun h =>
                                 match h with
                                 | ExceptHandler type _ handler_body =>
                                     score (walk_opt walk_expr type)
                                     + score (flat_map walk_stmt handler_body)
                                 end) handlers)); [|lia].
    induction handlers as [|[type name hbody] handlers IH];
      [reflexivity|].
    cbn [flat_map walk_excepthandler map].
    rewrite score_app, score_cons, score_app, IH.
    unfold len; cbn [List.length increment Zsum fold_right].
    rewrite Nat2Z.inj_succ; unfold Zsum; lia.
  - assert (H : score (flat_map walk_match_case cases)
                = Zsum (map (fun m =>
                               match m with
                               | MatchCase pattern guard case_body =>
                                   score (flat_map walk_expr pattern)
                                   + score (walk_opt walk_expr guard)
                                   + score (flat_map walk_stmt case_body)
                               end) cases)); [|lia].
    induction cases as [|[pattern guard cbody] cases IH]; [reflexivity|].
    cbn [flat_map walk_match_case map].
    rewrite score_app, score_cons, !score_app, IH.
    cbn [increment Zsum fold_right]; unfold Zsum; lia.
Qed.

(** ** The further properties at work on the sample inputs *)

(** X2 on [testdata/calculator.py]. *)
Lemma one_record_per_definition_in_walk_order_witness :
  let result :=
    Sample.run_extract Sample.calc_host "CALC" "testdata/calculator.py" in
  @extract Sample.calc_host (new_extractor "CALC" "testdata/calculator.py")
  = Ok result
  /\ map record_key (Result.nodes result)
     = [("Calculator", 1); ("__init__", 2); ("add", 5); ("multiply", 12);
        ("main", 20)].
Proof.
  intros result; split; [reflexivity|].
  rewrite (@one_record_per_definition_in_walk_order
             Sample.calc_host "CALC" "testdata/calculator.py" result
             Sample.calculator_py eq_refl eq_refl).
  reflexivity.
Defined.

(** X3 on the second [def run] of the guarded module, in the else
    branch of an if. *)
Lemma guarded_definitions_are_emitted_witness :
  let result := Sample.run_extract MoreSamples.guarded_host
                                   "GUARDED" "guarded.py" in
  let d := FunctionDef "run" (Sample.positional []) [Sample.pass] [] None 5
                       (Some 6) in
  map record_key (Result.nodes result) = [("run", 2); ("run", 5)]
  /\ exists r, In r (Result.nodes result) /\ definition_key d = [record_key r].
Proof.
  intros result d; split; [reflexivity|].
  apply (@guarded_definitions_are_emitted
           MoreSamples.guarded_host "GUARDED" "guarded.py" result
           MoreSamples.guarded_module
           (If (Name "FAST")
               [FunctionDef "run" (Sample.positional []) [Sample.pass] []
                            None 2 (Some 3)]
               [d])
           None d eq_refl eq_refl (or_introl eq_refl)).
  - eapply encloses_below;
      [reflexivity|right; left; reflexivity|apply encloses_here].
  - reflexivity.
Defined.

(** X4 on the record of [multiply]. *)
Lemma records_are_well_formed_witness :
  let result :=
    Sample.run_extract Sample.calc_host "CALC" "testdata/calculator.py" in
  let r := Sample.nth_node 3 result in
  In r (Result.nodes result)
  /\ Node.name r = "multiply"
  /\ Node.parameter_count r = len (Node.parameters r)
  /\ Node.return_count r = len (Node.return_values r).
Proof.
  intros result r.
  assert (Hin : In r (Result.nodes result))
    by (right; right; right; left; reflexivity).
  destruct (@records_are_well_formed
              Sample.calc_host "CALC" "testdata/calculator.py" result r
              eq_refl Hin) as (_ & Hpc & Hrc & _).
  repeat split; assumption.
Defined.

(** X5 on [def f(a: int, *rest, **opts) -> str: pass]. *)
Lemma callable_record_returns_and_decorators_witness :
  let r := nth 0 (@declare Sample.calc_host None Sample.variadic_def)
               (Node.init "" "" 0 0) in
  Node.return_values r = [{| Param.name := ""; Param.type := "str" |}]
  /\ Node.return_count r = 1
  /\ Node.decorators r = [].
Proof.
  intros r.
  assert (Hin : In r (@declare Sample.calc_host None Sample.variadic_def))
    by (left; reflexivity).
  destruct (@callable_record_returns_and_decorators
              Sample.calc_host None Sample.variadic_def r
              _ _ _ _ _ _ _ (or_introl eq_refl) Hin)
    as (_ & _ & Hdec & Hret & Hcount).
  repeat split; assumption.
Defined.

(** X6 on [async def fetch(url): pass]. *)
Lemma async_function_like_function_witness :
  2 <> 0
  /\ map Node.type
         (nodes (@visit Sample.calc_host MoreSamples.async_def
                        (new_extractor "" "")))
     = ["function"].
Proof.
  assert (H : 2 <> 0) by discriminate.
  split; [exact H|].
  unfold MoreSamples.async_def.
  rewrite (@async_function_like_function
             Sample.calc_host (new_extractor "" "") "fetch"
             (Sample.positional ["url"]) [Sample.pass] [] None 1 2 H).
  reflexivity.
Defined.

(** X7 on [@app.route / class View(base.View, Mixin): pass]. *)
Lemma class_record_bases_and_decorators_witness :
  let host := Sample.host [("view.py", "VIEW")] "VIEW"
                          (PyModule [MoreSamples.decorated_class]) in
  let result := Sample.run_extract host "VIEW" "view.py" in
  exists r,
    In r (Result.nodes result)
    /\ Node.type r = "class"
    /\ Node.name r = "View"
    /\ Node.start_line r = 2
    /\ Node.base_classes r = ["base.View"; "Mixin"]
    /\ Node.decorators r = ["app.route"].
Proof.
  intros host result.
  exact (@class_record_bases_and_decorators
           host "VIEW" "view.py" result
           (PyModule [MoreSamples.decorated_class])
           MoreSamples.decorated_class None
           "View" [Attribute (Name "base") "View"; Name "Mixin"] []
           [Sample.pass] [Attribute (Name "app") "route"] 2 (Some 3)
           eq_refl eq_refl (or_introl eq_refl)
           (encloses_here None MoreSamples.decorated_class)).
Defined.



(** X11 on [import os.path, numpy as np]. *)
Lemma plain_import_records_witness :
  let node := Import [Alias "os.path" None; Alias "numpy" (Some "np")] 4 in
  map (fun i => (ImportInfo.module i, ImportInfo.name i, ImportInfo.alias i,
                 ImportInfo.line i))
      (imports (@visit Sample.calc_host node (new_extractor "" "")))
  = [("os.path", "os.path", "", 4); ("numpy", "np", "np", 4)].
Proof.
  intros node; unfold node.
  rewrite (proj1 (proj1 (@plain_import_records
                           Sample.calc_host
                           [Alias "os.path" None; Alias "numpy" (Some "np")] 4)
                        (new_extractor "" ""))).
  reflexivity.
Defined.

(** X12 on the guarded module: the import of the try block, then the
    import of its except clause. *)
Lemma imports_in_statement_order_witness :
  let result := Sample.run_extract MoreSamples.guarded_host
                                   "GUARDED" "guarded.py" in
  map (fun i => (ImportInfo.module i, ImportInfo.name i, ImportInfo.line i))
      (Result.imports result)
  = [("json", "json", 8); ("simplejson", "json", 10)].
Proof.
  intros result.
  rewrite (@imports_in_statement_order
             MoreSamples.guarded_host "GUARDED" "guarded.py" result
             MoreSamples.guarded_module eq_refl eq_refl).
  reflexivity.
Defined.

(** X13 on the host whose interpreter stops every traversal. *)
Lemma extract_raises_no_SyntaxError_witness :
  @extract MoreSamples.shallow_host (new_extractor "DEEP" "deep.py")
  = Raise RecursionError.
Proof.
  apply (proj2 (@extract_raises_no_SyntaxError
                  MoreSamples.shallow_host "DEEP" "deep.py" RecursionError)).
  right; exists Sample.calculator_py; repeat split.
Defined.

(** X14 on [pkg/bad.py], which does not parse, and on
    [testdata/calculator.py], which does. *)
Lemma result_module_and_relationships_witness :
  Result.module (Sample.run_extract Sample.calc_host "def f(:" "pkg/bad.py")
  = "bad"
  /\ Result.module
       (Sample.run_extract Sample.calc_host "CALC" "testdata/calculator.py")
     = "calculator"
  /\ Result.relationships
       (Sample.run_extract Sample.calc_host "CALC" "testdata/calculator.py")
     = [].
Proof.
  destruct (@result_module_and_relationships
              Sample.calc_host "def f(:" "pkg/bad.py" _ eq_refl) as (Hbad & _).
  destruct (@result_module_and_relationships
              Sample.calc_host "CALC" "testdata/calculator.py" _ eq_refl)
    as (Hcalc & Hrel).
  split; [exact Hbad|split; [exact Hcalc|exact Hrel]].
Defined.

(** X16 on [testdata/calculator.py]. *)
Lemma main_prints_the_result_witness :
  @read_file Sample.calc_host "testdata/calculator.py" = Ok "CALC"
  /\ exit_status (@main Sample.calc_host ["extractor"; "testdata/calculator.py"])
     = 0
  /\ stdout (@main Sample.calc_host ["extractor"; "testdata/calculator.py"])
     = [Json.dumps_compact
          (document
             (Sample.run_extract Sample.calc_host "CALC"
                                 "testdata/calculator.py"))].
Proof.
  pose proof (@main_prints_the_result
                Sample.calc_host "extractor" "testdata/calculator.py" "CALC"
                Sample.calculator_py eq_refl eq_refl eq_refl) as H.
  split; [reflexivity|].
  rewrite H; split; reflexivity.
Defined.

(** ** The parent of a method is a class of the same result *)

Lemma encloses_class (c : option string) (s : stmt) (c' : option string)
      (d : stmt) :
  Encloses c s c' d ->
  c' = c
  \/ exists c'' name bases keywords body decorator_list lineno end_lineno,
      c' = Some name
      /\ Encloses c s c''
                  (ClassDef name bases keywords body decorator_list lineno
                            end_lineno).
Proof.
  induction 1 as [c s|c s child c' d Hs Hchild Henc IH]; [left; reflexivity|].
  destruct IH as [->|(c'' & name & bases & keywords & body & decorator_list
                      & lineno & end_lineno & -> & HC)].
  - destruct s; cbn [class_within]; try (left; reflexivity).
    right; do 8 eexists; split; [reflexivity|apply encloses_here].
  - right; do 8 eexists; split; [reflexivity|].
    eapply encloses_below; eassumption.
Qed.

Section ParentFacts.

Context {interpreter : Interpreter}.

(** X20.  The parent of every method record names a class that has a
    record of its own in the same result. *)
Theorem method_parent_is_an_emitted_class
        (source path : string) (result : Result.t) (r : PythonASTNode) :
  extract (new_extractor source path) = Ok result ->
  In r (Result.nodes result) ->
  Node.type r = "method" ->
  exists r',
    In r' (Result.nodes result)
    /\ Node.type r' = "class"
    /\ Node.name r' = Node.parent r.
Proof.
  intros Hextract Hin Hmethod.
  destruct (result_node_origin _ _ _ _ Hextract Hin)
    as (tree & s & c' & d & Hparse & Hs & Henc & Hd & Hr).
  destruct (is_callable d) eqn:Hc.
  - destruct (declare_callable c' d r Hc Hr)
      as (_ & _ & _ & _ & [(_ & _ & Hc' & _)|(_ & Hty & _)]);
      [|rewrite Hty in Hmethod; discriminate].
    destruct (encloses_class _ _ _ _ Henc)
      as [->|(c'' & name & bases & keywords & body & decorator_list
              & lineno & end_lineno & Hname & HC)]; [discriminate|].
    rewrite Hc' in Hname; injection Hname as Hname.
    eexists; split; [|split].
    + eapply origin_result_node; try eassumption.
      unfold declare, visit_ClassDef, nodes_append; cbn; left; reflexivity.
    + reflexivity.
    + cbn; symmetry; exact Hname.
  - destruct (declare_class c' d r Hd Hc Hr) as (_ & _ & Hty & _).
    rewrite Hty in Hmethod; discriminate.
Qed.

End ParentFacts.

(** X20 on the method [m] of [class Outer: class Inner: def m(self)]. *)
Lemma method_parent_is_an_emitted_class_witness :
  let result := Sample.run_extract Sample.classes_host "CLASSES" "classes.py" in
  let r := Sample.nth_node 2 result in
  Node.type r = "method"
  /\ Node.parent r = "Inner"
  /\ exists r',
      In r' (Result.nodes result)
      /\ Node.type r' = "class"
      /\ Node.name r' = Node.parent r.
Proof.
  intros result r.
  split; [reflexivity|split; [reflexivity|]].
  apply (@method_parent_is_an_emitted_class
           Sample.classes_host "CLASSES" "classes.py" result r eq_refl).
  - right; right; left; reflexivity.
  - reflexivity.
Defined.
